(** * system-report: health score, issue extraction and greeting text

    A shallow embedding of the decision logic of [src/main.py]:
    [SystemMonitor.get_system_health_score], [SmartGreeting.generate_greeting]
    and [SmartGreeting.get_quick_tips].  The Python code works on untyped
    dictionaries, so the embedding keeps them: a report is a finite map from
    keys to Python values, [.get] is a map lookup with a default, and an
    operation that raises in Python ([TypeError], [AttributeError]) yields
    [None] in the [option] monad. *)

From Stdlib Require Import QArith Ascii.
From stdpp Require Import gmap strings list pretty.

Set Warnings "-register-all".
Local Open Scope Z_scope.

(** ** Python values *)

(** Floats are modelled by the rational they denote: every comparison the
    program makes is between a stored number and an integer literal, which
    Python evaluates exactly.  Infinities and NaN are not represented. *)
Inductive value :=
  | VNone
  | VBool (b : bool)
  | VInt (n : Z)
  | VFloat (q : Q)
  | VStr (s : string)
  | VList (l : list value)
  | VDict (d : gmap string value).

Module Py.

(** Truth value testing, as performed by [if x:], [not x] and [x and y]. *)
Definition truthy (v : value) : bool :=
  match v with
  | VNone => false
  | VBool b => b
  | VInt n => negb (n =? 0)
  | VFloat q => negb (Qeq_bool q 0)
  | VStr s => negb (String.eqb s "")
  | VList l => match l with [] => false | _ => true end
  | VDict d => negb (bool_decide (d = ∅))
  end.

(** The number a value stands for in an arithmetic comparison; [bool] is a
    subclass of [int].  Anything else makes the comparison with an integer
    literal raise [TypeError]. *)
Definition num_of (v : value) : option Q :=
  match v with
  | VBool b => Some (inject_Z (if b then 1 else 0))
  | VInt n => Some (inject_Z n)
  | VFloat q => Some q
  | _ => None
  end.

Definition Qltb (a b : Q) : bool := negb (Qle_bool b a).

(** [v > k], [v < k] and [v >= k] for an integer literal [k]. *)
Definition gt (v : value) (k : Z) : option bool :=
  q ← num_of v; Some (Qltb (inject_Z k) q).
Definition lt (v : value) (k : Z) : option bool :=
  q ← num_of v; Some (Qltb q (inject_Z k)).
Definition ge (v : value) (k : Z) : option bool :=
  q ← num_of v; Some (Qle_bool (inject_Z k) q).

(** [d.get(key, dflt)]: only dictionaries have the method. *)
Definition get (d : value) (key : string) (dflt : value) : option value :=
  match d with
  | VDict m => Some (default dflt (m !! key))
  | _ => None
  end.

(** [len(x)]; for a string, its length in bytes, which is the number of
    characters of ASCII text. *)
Definition len (v : value) : option Z :=
  match v with
  | VStr s => Some (Z.of_nat (String.length s))
  | VList l => Some (Z.of_nat (length l))
  | VDict d => Some (Z.of_nat (size d))
  | _ => None
  end.

End Py.

(** ** SystemMonitor.get_system_health_score (lines 499-546)

    The function threads the local variable [score] through five blocks; each
    block is a function from the score so far to the score after it. *)

(** Lines 503-507. *)
Definition score_storage (report : gmap string value) (score : Z) : option Z :=
  let storage := default (VDict ∅) (report !! "storage") in
  p ← Py.get storage "percent_used" (VInt 0);
  c ← Py.gt p 90;
  if (c : bool) then Some (score - 20)
  else
    p ← Py.get storage "percent_used" (VInt 0);
    c ← Py.gt p 80;
    if (c : bool) then Some (score - 10) else Some score.

(** Lines 509-513. *)
Definition score_memory (report : gmap string value) (score : Z) : option Z :=
  let memory := default (VDict ∅) (report !! "memory") in
  p ← Py.get memory "percent_used" (VInt 0);
  c ← Py.gt p 90;
  if (c : bool) then Some (score - 15)
  else
    p ← Py.get memory "percent_used" (VInt 0);
    c ← Py.gt p 80;
    if (c : bool) then Some (score - 8) else Some score.

(** Line 517: [battery.get("percent", 100) < 20 and not battery.get("plugged")];
    the right operand is evaluated only when the left one is true. *)
Definition battery_low (battery : value) (dflt : value) : option bool :=
  p ← Py.get battery "percent" dflt;
  c ← Py.lt p 20;
  if (c : bool) then
    plugged ← Py.get battery "plugged" VNone;
    Some (negb (Py.truthy plugged))
  else Some false.

(** Lines 520-527. *)
Definition score_battery_health (battery : value) (score : Z) : option Z :=
  health_percentage ← Py.get battery "health_percentage" VNone;
  if Py.truthy health_percentage then
    c ← Py.lt health_percentage 50;
    if (c : bool) then Some (score - 25)
    else
      c ← Py.lt health_percentage 70;
      if (c : bool) then Some (score - 15)
      else
        c ← Py.lt health_percentage 80;
        if (c : bool) then Some (score - 8) else Some score
  else Some score.

(** Lines 529-534. *)
Definition score_battery_cycles (battery : value) (score : Z) : option Z :=
  cycle_count ← Py.get battery "cycle_count" VNone;
  if Py.truthy cycle_count then
    c ← Py.gt cycle_count 1000;
    if (c : bool) then Some (score - 10)
    else
      c ← Py.gt cycle_count 500;
      if (c : bool) then Some (score - 5) else Some score
  else Some score.

(** Lines 515-534. *)
Definition score_battery (report : gmap string value) (score : Z) : option Z :=
  let battery := default VNone (report !! "battery") in
  if Py.truthy battery then
    low ← battery_low battery (VInt 100);
    let score := if (low : bool) then score - 10 else score in
    score ← score_battery_health battery score;
    score_battery_cycles battery score
  else Some score.

(** Lines 536-538. *)
Definition score_startup (report : gmap string value) (score : Z) : option Z :=
  let startup := default (VDict ∅) (report !! "startup") in
  d ← Py.get startup "uptime_days" (VInt 0);
  c ← Py.gt d 30;
  if (c : bool) then Some (score - 5) else Some score.

(** Lines 540-544. *)
Definition score_drivers (report : gmap string value) (score : Z) : option Z :=
  let drivers := default (VDict ∅) (report !! "drivers") in
  u ← Py.get drivers "available_updates" (VInt 0);
  c ← Py.gt u 5;
  if (c : bool) then Some (score - 15)
  else
    u ← Py.get drivers "available_updates" (VInt 0);
    c ← Py.gt u 0;
    if (c : bool) then Some (score - 5) else Some score.

Definition get_system_health_score (report : gmap string value) : option Z :=
  let score := 100 in
  score ← score_storage report score;
  score ← score_memory report score;
  score ← score_battery report score;
  score ← score_startup report score;
  score ← score_drivers report score;
  Some (Z.max 0 score).

(** ** Well-formed snapshots

    The typing part of the data model: a metric category is absent, or a
    dictionary (measured data, or an error marker [{"error": msg}]) whose
    scored field, when present, is a number; the battery is absent, [None],
    or a dictionary with a numeric [percent] and optional numeric health
    fields.  Ranges are not required. *)

Definition is_num (v : value) : bool :=
  match v with VInt _ | VFloat _ => true | _ => false end.

Definition field_ok (P : value → bool) (d : gmap string value) (key : string) : bool :=
  match d !! key with None => true | Some v => P v end.

Definition opt (P : value → bool) (v : value) : bool :=
  match v with VNone => true | _ => P v end.

Definition section_ok (P : value → bool) (o : option value) (key : string) : bool :=
  match o with
  | None => true
  | Some (VDict d) => field_ok P d key
  | Some _ => false
  end.

Definition battery_ok (o : option value) : bool :=
  match o with
  | None | Some VNone => true
  | Some (VDict d) =>
      match d !! "percent" with Some v => is_num v | None => false end
      && field_ok (opt is_num) d "health_percentage"
      && field_ok (opt is_num) d "cycle_count"
  | Some _ => false
  end.

Definition list_ok (o : option value) : bool :=
  match o with None | Some (VList _) => true | Some _ => false end.

Definition well_formed (report : gmap string value) : bool :=
  section_ok is_num (report !! "storage") "percent_used"
  && section_ok is_num (report !! "memory") "percent_used"
  && section_ok is_num (report !! "startup") "uptime_days"
  && battery_ok (report !! "battery")
  && section_ok is_num (report !! "drivers") "available_updates"
  && list_ok (report !! "autostart_programs")
  && match report !! "health_score" with None => true | Some v => is_num v end.

(** A snapshot in which every collector failed, as [collect_full_report]
    builds it (lines 550-566): the error markers of lines 58, 73, 89, 103,
    212 and 494, and no battery (line 237). *)
Definition error_marker (msg : string) : value :=
  VDict {[ "error" := VStr msg ]}.

Definition all_errors (msg : string) : gmap string value :=
  <[ "storage" := error_marker msg ]>
  (<[ "memory" := error_marker msg ]>
  (<[ "startup" := error_marker msg ]>
  (<[ "autostart_programs" := VList [VStr ("Error detecting autostart: " +:+ msg)] ]>
  (<[ "services" := VList [VStr ("Error: " +:+ msg)] ]>
  (<[ "battery" := VNone ]>
  (<[ "drivers" := VDict (<[ "available_updates" := VInt 0 ]>
                         (<[ "last_checked" := VStr "Unknown" ]>
                         (<[ "status" := VStr "unknown" ]>
                         (<[ "error" := VStr msg ]> ∅)))) ]> ∅)))))).

(** ** SmartGreeting.generate_greeting (lines 577-671) *)

(** The value of [datetime.now()]. *)
Record datetime := {
  year : Z; month : Z; day : Z;
  hour : Z; minute : Z; second : Z; microsecond : Z
}.

(** [sep.join(l)] *)
Fixpoint join (sep : string) (l : list string) : string :=
  match l with
  | [] => ""
  | [x] => x
  | x :: l' => x +:+ sep +:+ join sep l'
  end.

(** [l[:-1]] *)
Definition all_but_last (l : list string) : list string :=
  take (length l - 1) l.

(** Lines 589-596. *)
Definition time_greeting (hour : Z) : string :=
  if (5 <=? hour) && (hour <? 12) then "Good morning!"
  else if (12 <=? hour) && (hour <? 17) then "Good afternoon!"
  else if (17 <=? hour) && (hour <? 21) then "Good evening!"
  else "Hello!".

(** Lines 600-609. *)
Definition health_sentence (health_score : value) : option string :=
  c ← Py.ge health_score 95;
  if (c : bool) then
    Some "Your system is running exceptionally well today! Everything looks perfect."
  else
    c ← Py.ge health_score 85;
    if (c : bool) then
      Some "Your computer is performing great with excellent system health."
    else
      c ← Py.ge health_score 70;
      if (c : bool) then
        Some "Your system is running well, though there might be room for minor improvements."
      else
        c ← Py.ge health_score 50;
        if (c : bool) then
          Some "Your computer needs some attention to optimize performance."
        else
          Some "Your system requires immediate maintenance for better performance.".

(** Lines 654-658, the body of [if issues:]. *)
Definition issues_sentence (issues : list string) : option string :=
  if (length issues =? 1)%nat then
    x ← issues !! 0%nat;
    Some ("I noticed " +:+ x +:+ ".")
  else
    x ← last issues;
    Some ("I noticed a few things: " +:+ join ", " (all_but_last issues)
          +:+ ", and " +:+ x +:+ ".").

(** Lines 660-666, the body of [if suggestions:]. *)
Definition suggestions_sentence (suggestions : list string) : option string :=
  if (length suggestions =? 1)%nat then
    x ← suggestions !! 0%nat;
    Some ("I'd recommend you " +:+ x +:+ ".")
  else if (length suggestions =? 2)%nat then
    x ← suggestions !! 0%nat;
    y ← suggestions !! 1%nat;
    Some ("I'd recommend you " +:+ x +:+ " and " +:+ y +:+ ".")
  else
    x ← last suggestions;
    Some ("I'd recommend you " +:+ join ", " (all_but_last suggestions)
          +:+ ", and " +:+ x +:+ ".").

Definition closing_sentence : string :=
  "Keep up the great work maintaining your system!".

(** [x and (x cmp k)], as in [health_percentage and health_percentage < 70]. *)
Definition present_and (cmp : value → Z → option bool) (x : value) (k : Z) : option bool :=
  if Py.truthy x then cmp x k else Some false.

Section text.

(** [str] of a float or of a container is the interpreter's; the program
    only interpolates it into its messages. *)
Variable repr : value → string.

(** The text an f-string field [{v}] expands to. *)
Definition py_str (v : value) : string :=
  match v with
  | VNone => "None"
  | VBool b => if b then "True" else "False"
  | VInt n => pretty n
  | VStr s => s
  | _ => repr v
  end.

(** The two lists the function appends to in step. *)
Definition found : Type := list string * list string.

Definition note (issue suggestion : string) (st : found) : found :=
  (st.1 ++ [issue], st.2 ++ [suggestion]).

(** Lines 614-619. *)
Definition issues_storage (storage : value) (st : found) : option found :=
  p ← Py.get storage "percent_used" (VInt 0);
  c ← Py.gt p 90;
  if (c : bool) then
    Some (note "critically low disk space" "free up disk space immediately" st)
  else
    p ← Py.get storage "percent_used" (VInt 0);
    c ← Py.gt p 80;
    if (c : bool) then
      Some (note "limited disk space" "consider cleaning up files" st)
    else Some st.

(** Lines 621-623. *)
Definition issues_memory (memory : value) (st : found) : option found :=
  p ← Py.get memory "percent_used" (VInt 0);
  c ← Py.gt p 85;
  if (c : bool) then
    Some (note "high memory usage" "close unused applications" st)
  else Some st.

(** Lines 625-627. *)
Definition issues_startup (startup : value) (st : found) : option found :=
  d ← Py.get startup "uptime_days" (VInt 0);
  c ← Py.gt d 14;
  if (c : bool) then
    d ← Py.get startup "uptime_days" VNone;
    Some (note (py_str d +:+ " days uptime") "restart your computer soon" st)
  else Some st.

(** Lines 629-631. *)
Definition issues_battery_low (battery : value) (st : found) : option found :=
  if Py.truthy battery then
    low ← battery_low battery VNone;
    if (low : bool) then Some (note "low battery" "connect your charger" st)
    else Some st
  else Some st.

(** Lines 633-647. *)
Definition issues_battery_health (battery : value) (st : found) : option found :=
  if Py.truthy battery then
    health_percentage ← Py.get battery "health_percentage" VNone;
    cycle_count ← Py.get battery "cycle_count" VNone;
    c ← present_and Py.lt health_percentage 70;
    st ← (if (c : bool) then
            health_status ← Py.get battery "health_status" (VStr "unknown");
            let issue := "battery health at " +:+ py_str health_percentage
                         +:+ "% (" +:+ py_str health_status +:+ ")" in
            c ← Py.lt health_percentage 50;
            if (c : bool) then Some (note issue "consider battery replacement" st)
            else Some (note issue "monitor battery performance" st)
          else Some st);
    c ← present_and Py.gt cycle_count 800;
    if (c : bool) then
      Some (note ("high battery cycles (" +:+ py_str cycle_count +:+ ")")
                 "consider battery maintenance" st)
    else Some st
  else Some st.

(** Lines 649-652. *)
Definition issues_drivers (drivers : value) (st : found) : option found :=
  u ← Py.get drivers "available_updates" (VInt 0);
  c ← Py.gt u 0;
  if (c : bool) then
    update_count ← Py.get drivers "available_updates" VNone;
    Some (note (py_str update_count +:+ " driver updates available")
               "update your drivers" st)
  else Some st.

(** Lines 580-584 and 611-652: the issue and suggestion lists. *)
Definition extract_issues (system_report : gmap string value) : option found :=
  let storage := default (VDict ∅) (system_report !! "storage") in
  let memory := default (VDict ∅) (system_report !! "memory") in
  let startup := default (VDict ∅) (system_report !! "startup") in
  let battery := default VNone (system_report !! "battery") in
  let drivers := default (VDict ∅) (system_report !! "drivers") in
  st ← issues_storage storage ([], []);
  st ← issues_memory memory st;
  st ← issues_startup startup st;
  st ← issues_battery_low battery st;
  st ← issues_battery_health battery st;
  issues_drivers drivers st.

(** The list [greeting_parts] when line 671 is reached.  [clock] is what
    the call [datetime.now()] on line 586 returns: the function has no
    time parameter and reads the system clock itself. *)
Definition greeting_parts (clock : datetime) (system_report : gmap string value)
    : option (list string) :=
  let health_score := default (VInt 100) (system_report !! "health_score") in
  let current_time := clock in
  let hour := current_time.(hour) in
  let greeting_parts := [time_greeting hour] in
  s ← health_sentence health_score;
  let greeting_parts := greeting_parts ++ [s] in
  st ← extract_issues system_report;
  let issues := st.1 in
  let suggestions := st.2 in
  greeting_parts ←
    (match issues with
     | [] => Some greeting_parts
     | _ => s ← issues_sentence issues; Some (greeting_parts ++ [s])
     end);
  greeting_parts ←
    (match suggestions with
     | [] => Some greeting_parts
     | _ => s ← suggestions_sentence suggestions; Some (greeting_parts ++ [s])
     end);
  c ← Py.ge health_score 85;
  if (c : bool) && match issues with [] => true | _ => false end then
    Some (greeting_parts ++ [closing_sentence])
  else Some greeting_parts.

Definition generate_greeting (clock : datetime) (system_report : gmap string value)
    : option string :=
  parts ← greeting_parts clock system_report;
  Some (join " " parts).

(** ** SmartGreeting.get_quick_tips (lines 673-706) *)

Definition tip_storage : string :=
  "Run disk cleanup to free up space - empty trash, clear browser cache, and remove temporary files.".
Definition tip_memory : string :=
  "Close unnecessary browser tabs and applications to free up RAM.".
Definition tip_restart : string :=
  "Restart your computer to apply updates and refresh system processes.".
Definition tip_autostart : string :=
  "Review your startup programs - disable unnecessary ones to speed up boot time.".
Definition tip_battery_health (health_percentage : value) : string :=
  "Battery health is at " +:+ py_str health_percentage
  +:+ "% - avoid extreme temperatures and deep discharges.".
Definition tip_battery_cycles : string :=
  "High battery cycle count - consider calibrating battery or reducing charge cycles.".
Definition tip_maintenance : string :=
  "Run a system maintenance routine: update drivers, scan for malware, and clean temporary files.".

Definition add_if (c : bool) (tip : string) (tips : list string) : list string :=
  if c then tips ++ [tip] else tips.

(** Lines 694-701. *)
Definition tips_battery (battery : value) (tips : list string) : option (list string) :=
  if Py.truthy battery then
    health_percentage ← Py.get battery "health_percentage" VNone;
    cycle_count ← Py.get battery "cycle_count" VNone;
    c ← present_and Py.lt health_percentage 80;
    if (c : bool) then Some (tips ++ [tip_battery_health health_percentage])
    else
      c ← present_and Py.gt cycle_count 500;
      Some (add_if c tip_battery_cycles tips)
  else Some tips.

(** The list [tips] when line 706 is reached. *)
Definition collected_tips (report : gmap string value) : option (list string) :=
  let tips := [] in
  let storage := default (VDict ∅) (report !! "storage") in
  let memory := default (VDict ∅) (report !! "memory") in
  let startup := default (VDict ∅) (report !! "startup") in
  let autostart := default (VList []) (report !! "autostart_programs") in
  let battery := default VNone (report !! "battery") in
  p ← Py.get storage "percent_used" (VInt 0);
  c ← Py.gt p 80;
  let tips := add_if c tip_storage tips in
  p ← Py.get memory "percent_used" (VInt 0);
  c ← Py.gt p 80;
  let tips := add_if c tip_memory tips in
  d ← Py.get startup "uptime_days" (VInt 0);
  c ← Py.gt d 7;
  let tips := add_if c tip_restart tips in
  n ← Py.len autostart;
  let tips := add_if (10 <? n) tip_autostart tips in
  tips ← tips_battery battery tips;
  c ← Py.lt (default (VInt 100) (report !! "health_score")) 80;
  let tips := add_if c tip_maintenance tips in
  Some tips.

(** Line 706: [return tips[:3]]. *)
Definition get_quick_tips (report : gmap string value) : option (list string) :=
  tips ← collected_tips report;
  Some (take 3 tips).

End text.

(** ** Reading a snapshot

    The quantities the thresholds are stated on.  A field that is absent
    counts as the default the code passes to [.get]. *)

(** The number stored under [key] of the category [sec], 0 when there is none. *)
Definition metric (report : gmap string value) (sec key : string) : Q :=
  match report !! sec with
  | Some (VDict d) => default 0%Q (d !! key ≫= Py.num_of)
  | _ => 0%Q
  end.

(** The stored health score, 100 when there is none. *)
Definition reported_score (report : gmap string value) : Q :=
  default 100%Q (report !! "health_score" ≫= Py.num_of).


Definition battery_present (report : gmap string value) : bool :=
  Py.truthy (default VNone (report !! "battery")).

Definition battery_field (report : gmap string value) (key : string) : value :=
  match report !! "battery" with
  | Some (VDict d) => default VNone (d !! key)
  | _ => VNone
  end.

(** A battery is present and its field [key] holds a number that counts as
    true (so not 0, which the code takes for absent) and satisfies [P]. *)
Definition battery_reading (report : gmap string value) (key : string) (P : Q → bool) : bool :=
  battery_present report
  && Py.truthy (battery_field report key)
  && match Py.num_of (battery_field report key) with
     | Some q => P q
     | None => false
     end.

Section tips_table.
Variable repr : value → string.



End tips_table.

(** ** Text helpers *)

Fixpoint last_char (s : string) : option Ascii.ascii :=
  match s with
  | EmptyString => None
  | String a EmptyString => Some a
  | String _ s' => last_char s'
  end.

Definition ends_with (s suffix : string) : Prop :=
  ∃ before, s = before +:+ suffix.

(** [suffix] occurs at the end of [s], decided by scanning [s]. *)
Fixpoint has_suffix (suffix s : string) : bool :=
  String.eqb suffix s
  || match s with
     | EmptyString => false
     | String _ s' => has_suffix suffix s'
     end.

(** ** Issue and suggestion pairs *)

(** Both lists after appending the pairs [extra] in order. *)
Definition add_all (st : found) (extra : list (string * string)) : found :=
  (st.1 ++ extra.*1, st.2 ++ extra.*2).

Definition memory_pair : string * string :=
  ("high memory usage", "close unused applications").

(** A pair that shares neither text with the memory pair. *)
Definition unrelated (p : string * string) : Prop :=
  p.1 ≠ memory_pair.1 ∧ p.2 ≠ memory_pair.2.

(** ** Sample snapshots *)

Definition storage_at (p : value) : gmap string value :=
  {[ "storage" := VDict {[ "percent_used" := p ]} ]}.

Definition memory_at (p : value) : gmap string value :=
  {[ "memory" := VDict {[ "percent_used" := p ]} ]}.

Definition battery_with (fields : gmap string value) : gmap string value :=
  {[ "battery" := VDict fields ]}.

(** percent 15 on battery power, health 45 %, 1200 cycles. *)
Definition worn_battery : gmap string value :=
  battery_with (<[ "percent" := VInt 15 ]>
               (<[ "plugged" := VBool false ]>
               (<[ "health_percentage" := VFloat 45 ]>
               (<[ "health_status" := VStr "critical" ]>
               (<[ "cycle_count" := VInt 1200 ]> ∅))))).

(** A battery whose full-charge capacity reads 0: lines 371-384 store
    [health_percentage = 0.0] with status "critical". *)
Definition dead_battery : gmap string value :=
  battery_with (<[ "percent" := VInt 80 ]>
               (<[ "plugged" := VBool true ]>
               (<[ "health_percentage" := VFloat 0 ]>
               (<[ "health_status" := VStr "critical" ]> ∅)))).

(** Every tip condition holds. *)
Definition troubled : gmap string value :=
  <[ "storage" := VDict {[ "percent_used" := VFloat (955 # 10) ]} ]>
  (<[ "memory" := VDict {[ "percent_used" := VFloat 88 ]} ]>
  (<[ "startup" := VDict {[ "uptime_days" := VInt 20 ]} ]>
  (<[ "autostart_programs" := VList (replicate 11 (VStr "agent")) ]>
  (<[ "drivers" := VDict {[ "available_updates" := VInt 3 ]} ]>
  (<[ "health_score" := VInt 42 ]> worn_battery))))).

Definition at_hour (h : Z) : datetime :=
  {| year := 2024; month := 5; day := 17; hour := h;
     minute := 30; second := 0; microsecond := 0 |}.

Definition no_repr (v : value) : string := "".

(** ** SmartGreeting._get_health_insights (lines 708-732) *)

(** [v <= k] for an integer literal [k]. *)
Definition py_le (v : value) (k : Z) : option bool :=
  q ← Py.num_of v; Some (Qle_bool q (inject_Z k)).

Definition insight_storage : string :=
  "You have plenty of storage space available for new files and applications.".
Definition insight_memory : string :=
  "Memory usage is optimal - your system should be running smoothly.".
Definition insight_restart : string :=
  "Recent restart detected - your system should be running fresh and fast.".
Definition insight_uptime : string :=
  "Your uptime is in a good range - not too fresh, not too stale.".
Definition insight_autostart : string :=
  "You have a clean startup configuration with minimal autostart programs.".

Definition get_health_insights (report : gmap string value) : option (list string) :=
  let insights := [] in
  let storage := default (VDict ∅) (report !! "storage") in
  let memory := default (VDict ∅) (report !! "memory") in
  let startup := default (VDict ∅) (report !! "startup") in
  let autostart := default (VList []) (report !! "autostart_programs") in
  p ← Py.get storage "percent_used" (VInt 0);
  c ← Py.lt p 50;
  let insights := add_if c insight_storage insights in
  p ← Py.get memory "percent_used" (VInt 0);
  c ← Py.lt p 60;
  let insights := add_if c insight_memory insights in
  d ← Py.get startup "uptime_days" (VInt 0);
  c ← Py.lt d 1;
  let insights := add_if c insight_restart insights in
  uptime_hours ← Py.get startup "uptime_hours" (VInt 0);
  c ← Py.ge uptime_hours 24;
  c ← (if (c : bool) then py_le uptime_hours 168 else Some false);
  let insights := add_if c insight_uptime insights in
  n ← Py.len autostart;
  let insights := add_if (n <? 5) insight_autostart insights in
  Some insights.

(** ** SystemGreeter.run, lines 895-900: the insights that are printed

    [insights[1:3]] is the second and third element. *)
Definition shown_insights (config report : gmap string value) : option (list string) :=
  if Py.truthy (default (VBool true) (config !! "show_insights")) then
    insights ← get_health_insights report;
    if (1 <? Z.of_nat (length insights)) then Some (take 2 (drop 1 insights))
    else Some []
  else Some [].

(** The insights need one more typed field than the scorer does. *)
Definition insights_ok (report : gmap string value) : bool :=
  well_formed report
  && section_ok is_num (report !! "startup") "uptime_hours".

(** ** SystemMonitor.get_autostart_programs (lines 91-105)

    The platform probe either returns the names it found or raises. *)
Inductive probe :=
  | Found (names : list string)
  | Raised (msg : string).

Definition get_autostart_programs (result : probe) : list string :=
  let programs := [] in
  let programs :=
    match result with
    | Found names => programs ++ names
    | Raised msg => programs ++ ["Error detecting autostart: " +:+ msg]
    end in
  take 10 programs.

(** ** SystemMonitor.collect_full_report (lines 548-569)

    What the collectors returned, in the order they are called. *)
Record collected := {
  c_timestamp : string;
  c_os : gmap string value;
  c_storage : value;
  c_memory : value;
  c_startup : value;
  c_autostart : probe;
  c_services : list string;
  c_battery : value;
  c_drivers : value
}.

Definition collect_full_report (c : collected) : option (gmap string value) :=
  let report : gmap string value :=
    <[ "timestamp" := VStr (c_timestamp c) ]>
    (<[ "os" := VDict (c_os c) ]>
    (<[ "storage" := c_storage c ]>
    (<[ "memory" := c_memory c ]>
    (<[ "startup" := c_startup c ]>
    (<[ "autostart_programs" := VList (VStr <$> get_autostart_programs (c_autostart c)) ]>
    (<[ "services" := VList (VStr <$> c_services c) ]>
    (<[ "battery" := c_battery c ]>
    (<[ "drivers" := c_drivers c ]> ∅)))))))) in
  score ← get_system_health_score report;
  Some (<[ "health_score" := VInt score ]> report).

(** ** SystemMonitor.get_battery_info (lines 216-237) *)

(** What [psutil.sensors_battery()] returns when there is a battery. *)
Record sbattery := {
  percent : value;
  secsleft : Z;
  power_plugged : value
}.

(** [power_time_unlimited] is psutil's constant [POWER_TIME_UNLIMITED];
    [sensors] is [None] also when the probe raised; [battery_health] is what
    [_get_detailed_battery_health] returned, a dictionary or [None].  An
    exception in the body is swallowed by the bare [except] and gives
    [None]. *)
Definition get_battery_info (power_time_unlimited : Z)
    (sensors : option sbattery) (battery_health : option (gmap string value)) : value :=
  match sensors with
  | None => VNone
  | Some battery =>
      let attempt : option (gmap string value) :=
        c ← Py.lt (percent battery) 20;
        let status :=
          if (c : bool) && negb (Py.truthy (power_plugged battery))
          then "critical" else "normal" in
        let battery_info : gmap string value :=
          <[ "percent" := percent battery ]>
          (<[ "plugged" := power_plugged battery ]>
          (<[ "time_left" := if bool_decide (secsleft battery ≠ power_time_unlimited)
                             then VInt (secsleft battery) else VNone ]>
          (<[ "status" := VStr status ]> ∅))) in
        match battery_health with
        | Some health =>
            if Py.truthy (VDict health) then Some (health ∪ battery_info)
            else Some battery_info
        | None => Some battery_info
        end in
      match attempt with
      | Some battery_info => VDict battery_info
      | None => VNone
      end
  end.

(** The health probes (lines 255-468) set capacity, cycle, chemistry, health
    and error keys, never the three keys of the charge state. *)
Definition keeps_charge_fields (battery_health : option (gmap string value)) : Prop :=
  ∀ health, battery_health = Some health →
            health !! "percent" = None ∧ health !! "plugged" = None
            ∧ health !! "status" = None.

(** ** SystemGreeter.display_system_report, lines 827-839: the Health cell
    of the battery row *)

(** [v == s] for a string literal [s]. *)
Definition py_eq_str (v : value) (s : string) : bool :=
  match v with VStr t => String.eqb t s | _ => false end.

Definition cell_warning : string := "⚠️".
Definition cell_fine : string := "✅".

Definition battery_health_cell (battery : value) : option string :=
  health_percentage ← Py.get battery "health_percentage" VNone;
  cycle_count ← Py.get battery "cycle_count" VNone;
  status ← Py.get battery "status" VNone;
  c ← (if py_eq_str status "critical" then Some true
       else
         c ← present_and Py.lt health_percentage 80;
         if (c : bool) then Some true
         else present_and Py.gt cycle_count 800);
  Some (if (c : bool) then cell_warning else cell_fine).

(** ** ConfigManager.load_config (lines 758-769) *)

Definition default_config : gmap string value :=
  <[ "display_sections" :=
       VDict (<[ "storage" := VBool true ]>
             (<[ "memory" := VBool true ]>
             (<[ "startup" := VBool true ]>
             (<[ "battery" := VBool true ]>
             (<[ "autostart" := VBool true ]>
             (<[ "services" := VBool false ]>
             (<[ "drivers" := VBool true ]> ∅))))))) ]>
  (<[ "greeting_style" := VStr "friendly" ]>
  (<[ "show_tips" := VBool true ]>
  (<[ "show_insights" := VBool true ]>
  (<[ "health_warnings" := VBool true ]>
  (<[ "max_autostart_display" := VInt 5 ]>
  (<[ "max_services_display" := VInt 5 ]>
  (<[ "personality_greetings" := VBool true ]> ∅))))))).

(** The configuration file as [load_config] meets it: absent, present but
    not readable as JSON, or parsed to a value. *)
Inductive config_file :=
  | NoFile
  | Unreadable
  | Parsed (v : value).

(** The configuration returned, and what is handed to [save_config] if it
    is called.  [{**a, **b}] keeps [b]'s entry where both have the key, and
    raises for a [b] that is not a dictionary, which the bare [except]
    turns into the fallback. *)
Definition load_config (file : config_file)
    : gmap string value * option (gmap string value) :=
  match file with
  | Parsed (VDict config) => (config ∪ default_config, None)
  | _ => (default_config, Some default_config)
  end.

(** ** The issue table

    The seven entries of the extractor in their order, each with the
    condition under which it is emitted, read on the snapshot. *)

Definition section_field (report : gmap string value) (sec key : string) : value :=
  match report !! sec with
  | Some (VDict d) => default VNone (d !! key)
  | _ => VNone
  end.

Definition when (c : bool) (p : string * string) : list (string * string) :=
  if c then [p] else [].

(** A battery is present, its charge is below 20 and it is not plugged. *)
Definition battery_charge_low (report : gmap string value) : bool :=
  battery_present report
  && match Py.num_of (battery_field report "percent") with
     | Some q => Py.Qltb q 20
     | None => false
     end
  && negb (Py.truthy (battery_field report "plugged")).

Section issue_table.
Variable repr : value → string.

Definition battery_health_pair (report : gmap string value) : string * string :=
  ("battery health at " +:+ py_str repr (battery_field report "health_percentage")
   +:+ "% (" +:+ py_str repr
                   (match report !! "battery" with
                    | Some (VDict d) => default (VStr "unknown") (d !! "health_status")
                    | _ => VStr "unknown"
                    end)
   +:+ ")",
   if battery_reading report "health_percentage" (λ q, Py.Qltb q 50)
   then "consider battery replacement" else "monitor battery performance").

Definition issue_table (report : gmap string value) : list (string * string) :=
  (if Py.Qltb 90 (metric report "storage" "percent_used")
   then [("critically low disk space", "free up disk space immediately")]
   else when (Py.Qltb 80 (metric report "storage" "percent_used"))
             ("limited disk space", "consider cleaning up files"))
  ++ when (Py.Qltb 85 (metric report "memory" "percent_used")) memory_pair
  ++ when (Py.Qltb 14 (metric report "startup" "uptime_days"))
          (py_str repr (section_field report "startup" "uptime_days") +:+ " days uptime",
           "restart your computer soon")
  ++ when (battery_charge_low report) ("low battery", "connect your charger")
  ++ when (battery_reading report "health_percentage" (λ q, Py.Qltb q 70))
          (battery_health_pair report)
  ++ when (battery_reading report "cycle_count" (λ q, Py.Qltb 800 q))
          ("high battery cycles (" +:+ py_str repr (battery_field report "cycle_count")
           +:+ ")", "consider battery maintenance")
  ++ when (Py.Qltb 0 (metric report "drivers" "available_updates"))
          (py_str repr (section_field report "drivers" "available_updates")
           +:+ " driver updates available", "update your drivers").

End issue_table.

(** ** SystemGreeter.display_system_report, lines 803-847: whether the row
    of a section is added

    [sections = self.config["display_sections"]] raises for a missing key;
    a row is added [if sections.get(name):]. *)
Definition section_shown (config : gmap string value) (name : string) : option bool :=
  sections ← config !! "display_sections";
  flag ← Py.get sections name VNone;
  Some (Py.truthy flag).

(** ** SystemMonitor._get_linux_autostart (lines 148-169) *)

Definition newline : Ascii.ascii := "010"%char.

(** [s.split("\n")] *)
Fixpoint split_lines (s : string) : list string :=
  match s with
  | EmptyString => [""]
  | String c s' =>
      if Ascii.eqb c newline then "" :: split_lines s'
      else match split_lines s' with
           | line :: rest => String c line :: rest
           | [] => [String c ""]
           end
  end.

(** [s.split(c, 1)[1]]: what follows the first [c]; without a [c] the list
    has one element and the index raises. *)
Fixpoint after_first (c : Ascii.ascii) (s : string) : option string :=
  match s with
  | EmptyString => None
  | String a s' => if Ascii.eqb a c then Some s' else after_first c s'
  end.

(** Lines 162-165: the loop over the lines of one file, left at the first
    line that starts with "Name=".  [None] when nothing is appended. *)
Fixpoint first_name (lines : list string) : option string :=
  match lines with
  | [] => None
  | line :: rest =>
      if String.prefix "Name=" line then after_first "="%char line
      else first_name rest
  end.

Definition desktop_name (content : string) : option string :=
  first_name (split_lines content).


Fixpoint no_newline (s : string) : bool :=
  match s with
  | EmptyString => true
  | String c s' => negb (Ascii.eqb c newline) && no_newline s'
  end.

(** ** SystemGreeter.display_system_report, lines 856-864: the list of
    autostart programs *)

(** [l[:k]] *)
Definition slice_to {A} (l : list A) (k : Z) : list A :=
  if k <? 0 then take (Z.to_nat (Z.max 0 (Z.of_nat (length l) + k))) l
  else take (Z.to_nat k) l.

(** [min(n, limit)] for the integer [n], as far as the result can be used
    as a slice bound: [min] returns [limit] when it is smaller, and a float
    bound makes the slice raise. *)
Definition display_count (n : Z) (limit : value) : option Z :=
  match limit with
  | VInt m => Some (Z.min n m)
  | VBool b => Some (Z.min n (if b then 1 else 0))
  | VFloat q => if Py.Qltb q (inject_Z n) then None else Some n
  | _ => None
  end.

Section listing.
Variable repr : value → string.

Definition listing_header (n : Z) : string :=
  String newline ("[bold]Autostart Programs (" +:+ pretty n +:+ "):[/bold]").

Definition listing_item (i : nat) (program : value) : string :=
  "  " +:+ pretty (Z.of_nat i + 1) +:+ ". " +:+ py_str repr program.

Definition listing_more (n : Z) : string :=
  "  ... and " +:+ pretty n +:+ " more".

(** What is printed for the list [autostart] stored in the report. *)
Definition autostart_listing (config : gmap string value) (autostart : list value)
    : option (list string) :=
  sections ← config !! "display_sections";
  flag ← Py.get sections "autostart" VNone;
  if Py.truthy flag then
    let n := Z.of_nat (length autostart) in
    if Py.truthy (VList autostart) && (0 <? n) then
      limit ← config !! "max_autostart_display";
      count ← display_count n limit;
      Some ([listing_header n]
            ++ imap listing_item (slice_to autostart count)
            ++ (if count <? n then [listing_more (n - count)] else []))
    else Some []
  else Some [].

End listing.

(** ** Sample collector results *)

Definition sample_sensors : sbattery :=
  {| percent := VFloat 15; secsleft := 5400; power_plugged := VBool false |}.

Definition sample_health : gmap string value :=
  <[ "health_percentage" := VFloat 45 ]>
  (<[ "health_status" := VStr "critical" ]>
  (<[ "cycle_count" := VInt 1200 ]> ∅)).

(** Twelve autostart entries were detected. *)
Definition sample_collected : collected :=
  {| c_timestamp := "2024-05-17T09:30:00";
     c_os := {[ "system" := VStr "Linux" ]};
     c_storage := VDict {[ "percent_used" := VFloat (955 # 10) ]};
     c_memory := VDict {[ "percent_used" := VFloat 88 ]};
     c_startup := VDict (<[ "uptime_days" := VInt 20 ]>
                        {[ "uptime_hours" := VFloat 481 ]});
     c_autostart := Found (replicate 12 "agent");
     c_services := ["cron"; "sshd"];
     c_battery := get_battery_info (-2) (Some sample_sensors) (Some sample_health);
     c_drivers := VDict {[ "available_updates" := VInt 3 ]} |}.

Definition sample_report : gmap string value :=
  default ∅ (collect_full_report sample_collected).

(** ** Facts about the scorer *)

Ltac bounds := eexists; split; [reflexivity | lia].
Ltac branches := simpl; repeat case_match; bounds.

Section scorer.
Implicit Types (report : gmap string value) (score : Z) (v : value).

Lemma Qltb_lt (a b : Q) : Py.Qltb a b = true ↔ (a < b)%Q.
Proof.
  unfold Py.Qltb. rewrite negb_true_iff, <- not_true_iff_false, Qle_bool_iff.
  split; [apply Qnot_le_lt | apply Qlt_not_le].
Qed.

Lemma Qltb_ge (a b : Q) : Py.Qltb a b = false ↔ (b <= a)%Q.
Proof.
  unfold Py.Qltb. rewrite negb_false_iff. apply Qle_bool_iff.
Qed.

Lemma num_of_num v : is_num v = true → ∃ q, Py.num_of v = Some q.
Proof. destruct v; try discriminate; simpl; eauto. Qed.

Lemma num_of_opt v :
  opt is_num v = true → v = VNone ∨ ∃ q, Py.num_of v = Some q.
Proof. destruct v; try discriminate; simpl; eauto. Qed.

(** On a well-formed category, [.get(key, 0)] succeeds and yields the
    number [metric] reads. *)
Lemma get_section report sec key :
  section_ok is_num (report !! sec) key = true →
  ∃ v, Py.get (default (VDict ∅) (report !! sec)) key (VInt 0) = Some v
       ∧ Py.num_of v = Some (metric report sec key).
Proof.
  unfold section_ok, field_ok, metric.
  destruct (report !! sec) as [[]|]; try discriminate; simpl.
  - destruct (d !! key) as [v|]; simpl.
    + intros [q Hq]%num_of_num. exists v. rewrite Hq. auto.
    + eauto.
  - rewrite lookup_empty. eauto.
Qed.

Lemma score_storage_total report score :
  section_ok is_num (report !! "storage") "percent_used" = true →
  ∃ s, score_storage report score = Some s ∧ score - 20 ≤ s ≤ score.
Proof.
  intros H. unfold score_storage, Py.gt. cbv zeta.
  destruct (get_section _ _ _ H) as (v & -> & Hq); simpl.
  rewrite Hq. branches.
Qed.

Lemma score_memory_total report score :
  section_ok is_num (report !! "memory") "percent_used" = true →
  ∃ s, score_memory report score = Some s ∧ score - 15 ≤ s ≤ score.
Proof.
  intros H. unfold score_memory, Py.gt. cbv zeta.
  destruct (get_section _ _ _ H) as (v & -> & Hq); simpl.
  rewrite Hq. branches.
Qed.

Lemma score_startup_total report score :
  section_ok is_num (report !! "startup") "uptime_days" = true →
  ∃ s, score_startup report score = Some s ∧ score - 5 ≤ s ≤ score.
Proof.
  intros H. unfold score_startup, Py.gt. cbv zeta.
  destruct (get_section _ _ _ H) as (v & -> & Hq); simpl.
  rewrite Hq. branches.
Qed.

Lemma score_drivers_total report score :
  section_ok is_num (report !! "drivers") "available_updates" = true →
  ∃ s, score_drivers report score = Some s ∧ score - 15 ≤ s ≤ score.
Proof.
  intros H. unfold score_drivers, Py.gt. cbv zeta.
  destruct (get_section _ _ _ H) as (v & -> & Hq); simpl.
  rewrite Hq. branches.
Qed.

(** What a well-formed battery dictionary holds. *)
Lemma battery_fields (d : gmap string value) :
  battery_ok (Some (VDict d)) = true →
  (∃ p q, d !! "percent" = Some p ∧ Py.num_of p = Some q)
  ∧ opt is_num (default VNone (d !! "health_percentage")) = true
  ∧ opt is_num (default VNone (d !! "cycle_count")) = true.
Proof.
  unfold battery_ok, field_ok. intros H.
  apply andb_true_iff in H as [H Hc]. apply andb_true_iff in H as [Hp Hh].
  split; [|split].
  - destruct (d !! "percent") as [p|]; [|discriminate].
    apply num_of_num in Hp as [q Hq]. eauto.
  - destruct (d !! "health_percentage"); simpl; auto.
  - destruct (d !! "cycle_count"); simpl; auto.
Qed.

Lemma battery_low_total (d : gmap string value) dflt :
  (∃ p q, d !! "percent" = Some p ∧ Py.num_of p = Some q) →
  ∃ b, battery_low (VDict d) dflt = Some b.
Proof.
  intros (p & q & Hp & Hq). unfold battery_low, Py.lt. simpl.
  rewrite Hp. simpl. rewrite Hq. simpl. case_match; eauto.
Qed.

Lemma score_battery_health_total (d : gmap string value) score :
  opt is_num (default VNone (d !! "health_percentage")) = true →
  ∃ s, score_battery_health (VDict d) score = Some s ∧ score - 25 ≤ s ≤ score.
Proof.
  unfold score_battery_health, Py.lt. simpl.
  intros [-> | [q Hq]]%num_of_opt; [simpl; bounds|].
  rewrite Hq. branches.
Qed.

Lemma score_battery_cycles_total (d : gmap string value) score :
  opt is_num (default VNone (d !! "cycle_count")) = true →
  ∃ s, score_battery_cycles (VDict d) score = Some s ∧ score - 10 ≤ s ≤ score.
Proof.
  unfold score_battery_cycles, Py.gt. simpl.
  intros [-> | [q Hq]]%num_of_opt; [simpl; bounds|].
  rewrite Hq. branches.
Qed.

Lemma score_battery_total report score :
  battery_ok (report !! "battery") = true →
  ∃ s, score_battery report score = Some s ∧ score - 45 ≤ s ≤ score.
Proof.
  intros H. unfold score_battery. cbv zeta.
  destruct (report !! "battery") as [[| | | | | |d]|]; try discriminate; simpl;
    try bounds.
  destruct (negb _); [|bounds].
  destruct (battery_fields d H) as (Hp & Hh & Hc).
  destruct (battery_low_total d (VInt 100) Hp) as [low ->]; simpl.
  destruct (score_battery_health_total d (if low then score - 10 else score) Hh)
    as (s1 & -> & ?); simpl.
  destruct (score_battery_cycles_total d s1 Hc) as (s2 & -> & ?).
  exists s2. split; [reflexivity|]. destruct low; lia.
Qed.

Lemma well_formed_parts report :
  well_formed report = true →
  section_ok is_num (report !! "storage") "percent_used" = true
  ∧ section_ok is_num (report !! "memory") "percent_used" = true
  ∧ section_ok is_num (report !! "startup") "uptime_days" = true
  ∧ battery_ok (report !! "battery") = true
  ∧ section_ok is_num (report !! "drivers") "available_updates" = true
  ∧ list_ok (report !! "autostart_programs") = true
  ∧ match report !! "health_score" with None => true | Some v => is_num v end = true.
Proof.
  unfold well_formed. rewrite !andb_true_iff. tauto.
Qed.

Lemma score_total report :
  well_formed report = true →
  ∃ s, get_system_health_score report = Some s ∧ 0 ≤ s ≤ 100.
Proof.
  intros (Hs & Hm & Hu & Hb & Hd & _)%well_formed_parts.
  unfold get_system_health_score. cbv zeta.
  destruct (score_storage_total report 100 Hs) as (s1 & -> & ?); simpl.
  destruct (score_memory_total report s1 Hm) as (s2 & -> & ?); simpl.
  destruct (score_battery_total report s2 Hb) as (s3 & -> & ?); simpl.
  destruct (score_startup_total report s3 Hu) as (s4 & -> & ?); simpl.
  destruct (score_drivers_total report s4 Hd) as (s5 & -> & ?); simpl.
  eexists. split; [reflexivity | lia].
Qed.

(** The health and cycle blocks subtract an amount that does not depend on
    the score they receive. *)
Lemma score_battery_health_shift battery score s t :
  score_battery_health battery score = Some s →
  score_battery_health battery t = Some (t - (score - s)).
Proof.
  unfold score_battery_health, Py.lt. intros H.
  destruct (Py.get _ _ _) as [v|]; simpl in *; [|discriminate].
  destruct (Py.truthy _); [|simplify_eq; f_equal; lia].
  destruct (Py.num_of v); simpl in *; [|discriminate].
  repeat destruct (Py.Qltb _ _); simplify_eq; f_equal; lia.
Qed.

Lemma score_battery_cycles_shift battery score s t :
  score_battery_cycles battery score = Some s →
  score_battery_cycles battery t = Some (t - (score - s)).
Proof.
  unfold score_battery_cycles, Py.gt. intros H.
  destruct (Py.get _ _ _) as [v|]; simpl in *; [|discriminate].
  destruct (Py.truthy _); [|simplify_eq; f_equal; lia].
  destruct (Py.num_of v); simpl in *; [|discriminate].
  repeat destruct (Py.Qltb _ _); simplify_eq; f_equal; lia.
Qed.

End scorer.

(** C1. For every well-formed snapshot the scorer returns an integer between
    0 and 100 without raising; the snapshot with every sub-record missing and
    the snapshot made of error markers both score exactly 100. *)
Theorem health_score_in_range :
  (∀ report : gmap string value,
     well_formed report = true →
     ∃ s, get_system_health_score report = Some s ∧ 0 ≤ s ≤ 100)
  ∧ (well_formed ∅ = true ∧ get_system_health_score ∅ = Some 100)
  ∧ (∀ msg, well_formed (all_errors msg) = true
            ∧ get_system_health_score (all_errors msg) = Some 100).
Proof.
  split; [exact score_total|]. split.
  - split; vm_compute; reflexivity.
  - intros msg. split; vm_compute; reflexivity.
Qed.

Lemma health_score_in_range_witness :
  well_formed troubled = true
  ∧ ∃ s, get_system_health_score troubled = Some s ∧ 0 ≤ s ≤ 100.
Proof.
  split; [vm_compute; reflexivity|].
  apply (proj1 health_score_in_range troubled). vm_compute; reflexivity.
Defined.

(** C2 as stated fails: at a storage use of exactly 90 the scorer does
    deduct, and the score is 90 rather than 100. *)
Lemma storage_90_is_deducted :
  score_storage (storage_at (VFloat 90)) 100 = Some 90
  ∧ get_system_health_score (storage_at (VFloat 90)) ≠ Some 100.
Proof. split; vm_compute; [reflexivity | discriminate]. Qed.

(** C2, amended. The storage comparisons are strict: above 90 the deduction
    is 20, above 80 and up to 90 (so at exactly 90) it is 10, and up to 80
    (so at exactly 80) there is none. *)
Theorem storage_tier_boundaries (report : gmap string value) (score : Z) :
  section_ok is_num (report !! "storage") "percent_used" = true →
  let p := metric report "storage" "percent_used" in
  ((90 < p)%Q → score_storage report score = Some (score - 20))
  ∧ ((80 < p)%Q ∧ (p <= 90)%Q → score_storage report score = Some (score - 10))
  ∧ ((p == 90)%Q → score_storage report score = Some (score - 10))
  ∧ ((p <= 80)%Q → score_storage report score = Some score).
Proof.
  intros H p. unfold score_storage, Py.gt. cbv zeta.
  destruct (get_section _ _ _ H) as (v & -> & Hq); simpl.
  rewrite Hq. simpl. fold p.
  split; [|split; [|split]].
  - intros Hp. apply Qltb_lt in Hp. change (inject_Z 90) with 90%Q. by rewrite Hp.
  - intros [H80 H90]. apply Qltb_lt in H80. apply Qltb_ge in H90.
    change (inject_Z 90) with 90%Q. change (inject_Z 80) with 80%Q.
    by rewrite H90, H80.
  - intros E.
    assert (H90 : Py.Qltb 90 p = false) by (apply Qltb_ge; rewrite E; apply Qle_refl).
    assert (H80 : Py.Qltb 80 p = true) by (apply Qltb_lt; rewrite E; reflexivity).
    change (inject_Z 90) with 90%Q. change (inject_Z 80) with 80%Q.
    by rewrite H90, H80.
  - intros H80.
    assert (H90 : Py.Qltb 90 p = false).
    { apply Qltb_ge. eapply Qle_trans; [exact H80 | discriminate]. }
    apply Qltb_ge in H80.
    change (inject_Z 90) with 90%Q. change (inject_Z 80) with 80%Q.
    by rewrite H90, H80.
Qed.

Lemma storage_tier_boundaries_witness :
  score_storage (storage_at (VFloat 90)) 100 = Some 90.
Proof.
  refine (proj1 (proj2 (proj2
    (storage_tier_boundaries (storage_at (VFloat 90)) 100 _))) _);
    vm_compute; reflexivity.
Defined.

(** Away from 0 the health block follows the table: a stored number below
    50 that counts as true costs 25, and an absent field costs nothing. *)
Lemma score_battery_health_below_50
    (fields : gmap string value) (v : value) (q : Q) (score : Z) :
  fields !! "health_percentage" = Some v →
  Py.num_of v = Some q → Py.truthy v = true → (q < 50)%Q →
  score_battery_health (VDict fields) score = Some (score - 25).
Proof.
  intros Hv Hq Ht Hlt%Qltb_lt. unfold score_battery_health, Py.lt. simpl.
  rewrite Hv. simpl. rewrite Ht, Hq. simpl.
  change (inject_Z 50) with 50%Q. by rewrite Hlt.
Qed.

Lemma score_battery_health_absent (fields : gmap string value) (score : Z) :
  fields !! "health_percentage" = None →
  score_battery_health (VDict fields) score = Some score.
Proof.
  intros Hv. unfold score_battery_health. simpl. by rewrite Hv.
Qed.

(** C4 at a health percentage of 0: the field is present and below 50, yet
    the guard [if health_percentage:] takes 0 for an absent value and the
    health block deducts nothing; the snapshot scores 100. *)
Theorem zero_health_not_deducted :
  well_formed dead_battery = true
  ∧ Py.lt (battery_field dead_battery "health_percentage") 50 = Some true
  ∧ score_battery_health (VDict {[ "health_percentage" := VFloat 0 ]}) 100 = Some 100
  ∧ get_system_health_score dead_battery = Some 100.
Proof. repeat split; vm_compute; reflexivity. Qed.

(** C5 as stated fails: the three battery deductions of the sample snapshot
    do not leave 65. *)
Lemma worn_battery_not_65 : get_system_health_score worn_battery ≠ Some 65.
Proof. vm_compute. discriminate. Qed.

(** C5, amended. The deductions for a low charge, for health and for cycle
    count add up: the battery block subtracts their sum, and the sample
    snapshot (15 % on battery power, health 45 %, 1200 cycles) scores
    100 - 10 - 25 - 10 = 55. *)
Theorem battery_deductions_additive :
  get_system_health_score worn_battery = Some 55
  ∧ ∀ (fields : gmap string value) (score : Z) (low : bool) (h c : Z),
      Py.truthy (VDict fields) = true →
      battery_low (VDict fields) (VInt 100) = Some low →
      score_battery_health (VDict fields) 100 = Some (100 - h) →
      score_battery_cycles (VDict fields) 100 = Some (100 - c) →
      score_battery (battery_with fields) score
      = Some (score - (if low then 10 else 0) - h - c).
Proof.
  split; [vm_compute; reflexivity|].
  intros fields score low h c Ht Hl Hh Hc.
  unfold score_battery, battery_with. cbv zeta.
  rewrite lookup_singleton_eq. simpl in Ht |- *. rewrite Ht, Hl. simpl.
  rewrite (score_battery_health_shift _ _ _ (if low then score - 10 else score) Hh).
  simpl.
  rewrite (score_battery_cycles_shift _ _ _
             ((if low then score - 10 else score) - (100 - (100 - h))) Hc).
  f_equal. destruct low; lia.
Qed.

Lemma battery_deductions_additive_witness :
  score_battery worn_battery 100 = Some 55.
Proof.
  refine (proj2 battery_deductions_additive _ 100 true 25 10 _ _ _ _);
    vm_compute; reflexivity.
Defined.

(** ** Facts about strings *)

Lemma string_app_cons (a : Ascii.ascii) (s t : string) :
  String a s +:+ t = String a (s +:+ t).
Proof. reflexivity. Qed.

Lemma string_app_nil (t : string) : "" +:+ t = t.
Proof. reflexivity. Qed.

Lemma string_app_assoc (s t u : string) : (s +:+ t) +:+ u = s +:+ t +:+ u.
Proof.
  induction s as [|a s IH]; [done|].
  rewrite !string_app_cons. by f_equal.
Qed.

Lemma has_suffix_refl (s : string) : has_suffix s s = true.
Proof.
  destruct s as [|a s]; [reflexivity|].
  change (String.eqb (String a s) (String a s) || has_suffix (String a s) s = true).
  by rewrite String.eqb_refl.
Qed.

Lemma has_suffix_app (s suffix lit : string) :
  s +:+ suffix = lit → has_suffix suffix lit = true.
Proof.
  revert lit. induction s as [|a s IH]; intros lit <-.
  - apply has_suffix_refl.
  - rewrite string_app_cons. simpl. rewrite (IH _ eq_refl). apply orb_true_r.
Qed.

Lemma not_suffix (s suffix lit : string) :
  has_suffix suffix lit = false → s +:+ suffix ≠ lit.
Proof. intros Hn E. apply has_suffix_app in E. congruence. Qed.

Lemma app_not_empty (s t : string) : t ≠ "" → s +:+ t ≠ "".
Proof. destruct s; [done | discriminate]. Qed.

Lemma last_char_app (s t : string) :
  t ≠ "" → last_char (s +:+ t) = last_char t.
Proof.
  intros Ht. induction s as [|a s IH]; [done|].
  rewrite string_app_cons. simpl. rewrite IH.
  pose proof (app_not_empty s t Ht). by destruct (s +:+ t).
Qed.

Lemma join_snoc (sep : string) (l : list string) (x : string) :
  ∃ before, join sep (l ++ [x]) = before +:+ x.
Proof.
  induction l as [|y l [before IH]].
  - by exists "".
  - exists (y +:+ sep +:+ before). simpl in *. rewrite IH.
    destruct (l ++ [x]) eqn:E.
    + by destruct l.
    + by rewrite !string_app_assoc.
Qed.

(** ** Facts about the extraction of issues *)

Section extraction.
Variable repr : value → string.
Implicit Types (report : gmap string value) (st : found).

Lemma add_all_nil st : add_all st [] = st.
Proof. destruct st. unfold add_all. simpl. by rewrite !app_nil_r. Qed.

Lemma add_all_app st e1 e2 :
  add_all (add_all st e1) e2 = add_all st (e1 ++ e2).
Proof. unfold add_all. simpl. by rewrite !fmap_app, !app_assoc. Qed.

Lemma unrelated_literal (i sg : string) :
  i ≠ memory_pair.1 → sg ≠ memory_pair.2 → Forall unrelated [(i, sg)].
Proof. intros. by repeat constructor. Qed.

Ltac none := exists []; split; [by rewrite add_all_nil | constructor].
Ltac one p :=
  exists [p]; split;
    [reflexivity
    | apply unrelated_literal; simpl; rewrite ?string_app_cons;
      first [discriminate | apply not_suffix; reflexivity]].

Lemma issues_storage_adds report st :
  section_ok is_num (report !! "storage") "percent_used" = true →
  ∃ extra, issues_storage (default (VDict ∅) (report !! "storage")) st
           = Some (add_all st extra) ∧ Forall unrelated extra.
Proof.
  intros H. unfold issues_storage, Py.gt.
  destruct (get_section _ _ _ H) as (v & -> & Hq); simpl.
  rewrite Hq. simpl. repeat case_match.
  - one ("critically low disk space", "free up disk space immediately").
  - one ("limited disk space", "consider cleaning up files").
  - none.
Qed.

Lemma issues_memory_adds report st :
  section_ok is_num (report !! "memory") "percent_used" = true →
  issues_memory (default (VDict ∅) (report !! "memory")) st
  = Some (add_all st (if Py.Qltb 85 (metric report "memory" "percent_used")
                      then [memory_pair] else [])).
Proof.
  intros H. unfold issues_memory, Py.gt.
  destruct (get_section _ _ _ H) as (v & -> & Hq); simpl.
  rewrite Hq. simpl. change (inject_Z 85) with 85%Q.
  case_match; [reflexivity | by rewrite add_all_nil].
Qed.

Lemma issues_startup_adds report st :
  section_ok is_num (report !! "startup") "uptime_days" = true →
  ∃ extra, issues_startup repr (default (VDict ∅) (report !! "startup")) st
           = Some (add_all st extra) ∧ Forall unrelated extra.
Proof.
  intros H. unfold issues_startup, Py.gt.
  destruct (get_section _ _ _ H) as (v & Hv & Hq). rewrite Hv. simpl.
  rewrite Hq. simpl. case_match; [|none].
  destruct (default (VDict ∅) (report !! "startup")); try discriminate.
  simpl. one (py_str repr (default VNone (d !! "uptime_days")) +:+ " days uptime",
              "restart your computer soon").
Qed.

Lemma issues_drivers_adds report st :
  section_ok is_num (report !! "drivers") "available_updates" = true →
  ∃ extra, issues_drivers repr (default (VDict ∅) (report !! "drivers")) st
           = Some (add_all st extra) ∧ Forall unrelated extra.
Proof.
  intros H. unfold issues_drivers, Py.gt.
  destruct (get_section _ _ _ H) as (v & Hv & Hq). rewrite Hv. simpl.
  rewrite Hq. simpl. case_match; [|none].
  destruct (default (VDict ∅) (report !! "drivers")); try discriminate.
  simpl. one (py_str repr (default VNone (d !! "available_updates"))
              +:+ " driver updates available", "update your drivers").
Qed.

Lemma issues_battery_low_adds report st :
  battery_ok (report !! "battery") = true →
  ∃ extra, issues_battery_low (default VNone (report !! "battery")) st
           = Some (add_all st extra) ∧ Forall unrelated extra.
Proof.
  intros H. unfold issues_battery_low.
  destruct (report !! "battery") as [[| | | | | |d]|]; try discriminate; simpl;
    try none.
  destruct (negb _); [|none].
  destruct (battery_fields d H) as (Hp & _).
  destruct (battery_low_total d VNone Hp) as [low ->]; simpl.
  destruct low; [|none].
  one ("low battery", "connect your charger").
Qed.

(** [x and x < k] and [x and x > k] on an optional number. *)
Lemma present_and_lt v k :
  opt is_num v = true →
  ∃ b, present_and Py.lt v k = Some b
       ∧ (b = true → ∃ q, Py.num_of v = Some q).
Proof.
  unfold present_and, Py.lt.
  intros [-> | [q Hq]]%num_of_opt; [by exists false|].
  rewrite Hq. simpl. destruct (Py.truthy v); eauto.
Qed.

Lemma present_and_gt v k :
  opt is_num v = true →
  ∃ b, present_and Py.gt v k = Some b
       ∧ (b = true → ∃ q, Py.num_of v = Some q).
Proof.
  unfold present_and, Py.gt.
  intros [-> | [q Hq]]%num_of_opt; [by exists false|].
  rewrite Hq. simpl. destruct (Py.truthy v); eauto.
Qed.

Lemma issues_battery_health_adds report st :
  battery_ok (report !! "battery") = true →
  ∃ extra, issues_battery_health repr (default VNone (report !! "battery")) st
           = Some (add_all st extra) ∧ Forall unrelated extra.
Proof.
  intros H. unfold issues_battery_health.
  destruct (report !! "battery") as [[| | | | | |d]|]; try discriminate; simpl;
    try none.
  destruct (negb _); [|none].
  destruct (battery_fields d H) as (_ & Hh & Hc).
  set (hp := default VNone (d !! "health_percentage")) in *.
  set (cc := default VNone (d !! "cycle_count")) in *.
  set (hs := default (VStr "unknown") (d !! "health_status")).
  destruct (present_and_lt hp 70 Hh) as (bh & -> & Hbh).
  destruct (present_and_gt cc 800 Hc) as (bc & -> & _). simpl.
  set (issue := "battery health at " +:+ py_str repr hp +:+ "% ("
                +:+ py_str repr hs +:+ ")").
  set (cycles := ("high battery cycles (" +:+ py_str repr cc +:+ ")",
                  "consider battery maintenance")).
  assert (Hi : ∀ sg, sg ≠ memory_pair.2 → Forall unrelated [(issue, sg)]).
  { intros sg Hsg. apply unrelated_literal; [|done].
    unfold issue. rewrite !string_app_cons. discriminate. }
  assert (Hcy : Forall unrelated [cycles]).
  { apply unrelated_literal; simpl; [|discriminate].
    rewrite !string_app_cons. discriminate. }
  destruct bh.
  - destruct (Hbh eq_refl) as [q Hq]. unfold Py.lt. rewrite Hq. simpl.
    destruct (Py.Qltb q _); simpl; destruct bc.
    + exists [(issue, "consider battery replacement"); cycles].
      split; [unfold note, add_all; simpl; by rewrite <- !app_assoc|].
      apply (Forall_app _ [_] [_]). split; [by apply Hi | done].
    + exists [(issue, "consider battery replacement")]. split; [done|].
      by apply Hi.
    + exists [(issue, "monitor battery performance"); cycles].
      split; [unfold note, add_all; simpl; by rewrite <- !app_assoc|].
      apply (Forall_app _ [_] [_]). split; [by apply Hi | done].
    + exists [(issue, "monitor battery performance")]. split; [done|].
      by apply Hi.
  - simpl. destruct bc; [|none]. by exists [cycles].
Qed.

(** The lists [extract_issues] returns are the two columns of one list of
    pairs, in which the memory pair stands exactly when memory use is
    above 85 and no other entry shares a text with it. *)
Lemma extract_issues_pairs report :
  well_formed report = true →
  ∃ before after,
    Forall unrelated before ∧ Forall unrelated after
    ∧ let pairs :=
        before
        ++ (if Py.Qltb 85 (metric report "memory" "percent_used")
            then [memory_pair] else [])
        ++ after in
      extract_issues repr report = Some (pairs.*1, pairs.*2).
Proof.
  intros (Hs & Hm & Hu & Hb & Hd & _)%well_formed_parts.
  unfold extract_issues. cbv zeta.
  destruct (issues_storage_adds report ([], []) Hs) as (e1 & -> & F1). simpl.
  rewrite (issues_memory_adds report _ Hm). simpl.
  destruct (issues_startup_adds report
              (add_all (add_all ([], []) e1)
                 (if Py.Qltb 85 (metric report "memory" "percent_used")
                  then [memory_pair] else [])) Hu) as (e3 & -> & F3). simpl.
  match goal with |- context [issues_battery_low _ ?st] =>
    destruct (issues_battery_low_adds report st Hb) as (e4 & -> & F4) end. simpl.
  match goal with |- context [issues_battery_health _ _ ?st] =>
    destruct (issues_battery_health_adds report st Hb) as (e5 & -> & F5) end. simpl.
  match goal with |- context [issues_drivers _ _ ?st] =>
    destruct (issues_drivers_adds report st Hd) as (e6 & -> & F6) end.
  exists e1, (e3 ++ e4 ++ e5 ++ e6). split; [done|]. split.
  { by rewrite !Forall_app. }
  rewrite !add_all_app. unfold add_all. simpl.
  by rewrite <- ?app_assoc.
Qed.

Lemma pairs_memory (before after : list (string * string)) (c : bool) :
  Forall unrelated before → Forall unrelated after →
  let pairs := before ++ (if c then [memory_pair] else []) ++ after in
  (memory_pair.1 ∈ pairs.*1 ↔ c = true)
  ∧ (memory_pair ∈ pairs ↔ c = true).
Proof.
  intros Fb Fa pairs.
  assert (Hno : ∀ l, Forall unrelated l → memory_pair.1 ∉ l.*1).
  { intros l Fl [p [E Hp]]%list_elem_of_fmap.
    rewrite Forall_forall in Fl. destruct (Fl p Hp) as [Hne _]. by apply Hne. }
  assert (Hin : memory_pair ∈ pairs → memory_pair.1 ∈ pairs.*1).
  { intros Hp. apply list_elem_of_fmap. by exists memory_pair. }
  assert (Hc : memory_pair.1 ∈ pairs.*1 → c = true).
  { unfold pairs. rewrite !fmap_app, !elem_of_app.
    intros [Hx | [Hx | Hx]].
    - by destruct (Hno before Fb).
    - destruct c; [done | by apply elem_of_nil in Hx].
    - by destruct (Hno after Fa). }
  assert (Hm : c = true → memory_pair ∈ pairs).
  { intros ->. unfold pairs. rewrite !elem_of_app. right; left.
    apply list_elem_of_singleton. done. }
  split; split; auto.
Qed.

End extraction.

(** C6. On a well-formed snapshot the extractor emits "high memory usage",
    paired with "close unused applications", exactly when memory use is above
    85; the scorer's memory tiers stay at 80 and 90, so a memory use of 82
    costs 8 points without an issue and one of 88 raises the issue at the
    same cost. *)
Theorem memory_issue_threshold (repr : value → string) (report : gmap string value) :
  well_formed report = true →
  (∃ issues suggestions,
     extract_issues repr report = Some (issues, suggestions)
     ∧ ("high memory usage" ∈ issues
        ↔ (85 < metric report "memory" "percent_used")%Q)
     ∧ (("high memory usage", "close unused applications") ∈ zip issues suggestions
        ↔ (85 < metric report "memory" "percent_used")%Q))
  ∧ (score_memory (memory_at (VInt 82)) 100 = Some 92
     ∧ extract_issues repr (memory_at (VInt 82)) = Some ([], []))
  ∧ (score_memory (memory_at (VInt 88)) 100 = Some 92
     ∧ extract_issues repr (memory_at (VInt 88))
       = Some (["high memory usage"], ["close unused applications"]))
  ∧ score_memory (memory_at (VInt 91)) 100 = Some 85.
Proof.
  intros H. split; [|repeat split; vm_compute; reflexivity].
  destruct (extract_issues_pairs repr report H) as (before & after & Fb & Fa & E).
  cbv zeta in E. eexists _, _. split; [exact E|].
  destruct (pairs_memory before after
              (Py.Qltb 85 (metric report "memory" "percent_used")) Fb Fa) as [H1 H2].
  cbv zeta in H1, H2. rewrite zip_fst_snd, <- Qltb_lt. split; assumption.
Qed.

Lemma memory_issue_threshold_witness :
  well_formed troubled = true
  ∧ ∃ issues suggestions,
      extract_issues no_repr troubled = Some (issues, suggestions)
      ∧ ("high memory usage" ∈ issues
         ↔ (85 < metric troubled "memory" "percent_used")%Q)
      ∧ (("high memory usage", "close unused applications") ∈ zip issues suggestions
         ↔ (85 < metric troubled "memory" "percent_used")%Q).
Proof.
  split; [vm_compute; reflexivity|].
  apply (proj1 (memory_issue_threshold no_repr troubled eq_refl)).
Defined.

(** C10. On a well-formed snapshot the issue list and the suggestion list
    have the same length, so one is empty exactly when the other is. *)
Theorem issues_suggestions_paired (repr : value → string) (report : gmap string value) :
  well_formed report = true →
  ∃ issues suggestions,
    extract_issues repr report = Some (issues, suggestions)
    ∧ length issues = length suggestions
    ∧ (issues = [] ↔ suggestions = []).
Proof.
  intros H.
  destruct (extract_issues_pairs repr report H) as (before & after & _ & _ & E).
  cbv zeta in E. eexists _, _. split; [exact E|].
  split; [by rewrite !length_fmap|].
  split; intros E0%fmap_nil_inv; by rewrite E0.
Qed.

Lemma issues_suggestions_paired_witness :
  well_formed troubled = true
  ∧ ∃ issues suggestions,
      extract_issues no_repr troubled = Some (issues, suggestions)
      ∧ length issues = length suggestions
      ∧ (issues = [] ↔ suggestions = []).
Proof.
  split; [vm_compute; reflexivity|].
  apply (issues_suggestions_paired no_repr troubled). vm_compute; reflexivity.
Defined.

(** ** Facts about the sentences of the greeting *)

Section sentences.
Implicit Types (l init : list string) (x : string).

Lemma all_but_last_snoc init x : all_but_last (init ++ [x]) = init.
Proof.
  unfold all_but_last. rewrite length_app. simpl.
  replace (length init + 1 - 1)%nat with (length init) by lia.
  by rewrite take_app_length.
Qed.

Lemma issues_sentence_one x :
  issues_sentence [x] = Some ("I noticed " +:+ x +:+ ".").
Proof. reflexivity. Qed.

Lemma issues_sentence_many init x :
  (1 ≤ length init)%nat →
  issues_sentence (init ++ [x])
  = Some ("I noticed a few things: " +:+ join ", " init +:+ ", and " +:+ x +:+ ".").
Proof.
  intros Hn. unfold issues_sentence.
  rewrite length_app, last_snoc, all_but_last_snoc. simpl.
  destruct (Nat.eqb_spec (length init + 1) 1); [lia | done].
Qed.

Lemma suggestions_sentence_one x :
  suggestions_sentence [x] = Some ("I'd recommend you " +:+ x +:+ ".").
Proof. reflexivity. Qed.

Lemma suggestions_sentence_two x y :
  suggestions_sentence [x; y]
  = Some ("I'd recommend you " +:+ x +:+ " and " +:+ y +:+ ".").
Proof. reflexivity. Qed.

Lemma suggestions_sentence_many init x :
  (2 ≤ length init)%nat →
  suggestions_sentence (init ++ [x])
  = Some ("I'd recommend you " +:+ join ", " init +:+ ", and " +:+ x +:+ ".").
Proof.
  intros Hn. unfold suggestions_sentence.
  rewrite length_app, last_snoc, all_but_last_snoc. simpl.
  destruct (Nat.eqb_spec (length init + 1) 1); [lia|].
  destruct (Nat.eqb_spec (length init + 1) 2); [lia | done].
Qed.

Lemma two_differs_from_list x y :
  "I'd recommend you " +:+ x +:+ " and " +:+ y +:+ "."
  ≠ "I'd recommend you " +:+ join ", " [x] +:+ ", and " +:+ y +:+ ".".
Proof.
  simpl. intros E.
  apply (inj (String.app _)) in E. apply (inj (String.app _)) in E.
  rewrite !string_app_cons in E. discriminate.
Qed.

End sentences.

(** C8. The sentences are built by the length of the list: one issue gives
    "I noticed x.", several give "I noticed a few things: ..." with ", and"
    before the last; one suggestion is given directly, exactly two are joined
    by " and " without a comma, three or more form a list with ", and" before
    the last, and the text for two differs from what the list form would
    give. *)
Theorem sentence_formats :
  (∀ x, issues_sentence [x] = Some ("I noticed " +:+ x +:+ "."))
  ∧ (∀ init x, (1 ≤ length init)%nat →
       issues_sentence (init ++ [x])
       = Some ("I noticed a few things: " +:+ join ", " init
               +:+ ", and " +:+ x +:+ "."))
  ∧ (∀ x y z,
       issues_sentence [x; y; z]
       = Some ("I noticed a few things: " +:+ x +:+ ", " +:+ y
               +:+ ", and " +:+ z +:+ "."))
  ∧ (∀ x, suggestions_sentence [x] = Some ("I'd recommend you " +:+ x +:+ "."))
  ∧ (∀ x y,
       suggestions_sentence [x; y]
       = Some ("I'd recommend you " +:+ x +:+ " and " +:+ y +:+ "."))
  ∧ (∀ init x, (2 ≤ length init)%nat →
       suggestions_sentence (init ++ [x])
       = Some ("I'd recommend you " +:+ join ", " init
               +:+ ", and " +:+ x +:+ "."))
  ∧ (∀ x y,
       suggestions_sentence [x; y]
       ≠ Some ("I'd recommend you " +:+ join ", " [x] +:+ ", and " +:+ y +:+ ".")).
Proof.
  split; [exact issues_sentence_one|].
  split; [exact issues_sentence_many|].
  split.
  { intros x y z. change [x; y; z] with ([x; y] ++ [z]).
    rewrite issues_sentence_many by (simpl; lia).
    simpl. by rewrite !string_app_assoc. }
  split; [exact suggestions_sentence_one|].
  split; [exact suggestions_sentence_two|].
  split; [exact suggestions_sentence_many|].
  intros x y. rewrite suggestions_sentence_two. intros E.
  apply (two_differs_from_list x y). by apply (inj Some).
Qed.

Lemma sentence_formats_witness :
  issues_sentence ["limited disk space"; "low battery"]
  = Some "I noticed a few things: limited disk space, and low battery."
  ∧ suggestions_sentence ["a"; "b"; "c"] = Some "I'd recommend you a, b, and c.".
Proof.
  split.
  - apply (proj1 (proj2 sentence_formats) ["limited disk space"] "low battery").
    simpl. lia.
  - apply (proj1 (proj2 (proj2 (proj2 (proj2 (proj2 sentence_formats)))))
             ["a"; "b"] "c").
    simpl. lia.
Defined.

(** ** Facts about the tips *)

Section tips.
Variable repr : value → string.
Implicit Types (report : gmap string value) (tips : list string).

Lemma add_if_app (c : bool) (tip : string) tips :
  add_if c tip tips = tips ++ (if c then [tip] else []).
Proof. destruct c; simpl; [done | by rewrite app_nil_r]. Qed.

Lemma present_and_reading cmp (P : Q → bool) v k :
  (∀ q, Py.num_of v = Some q → cmp v k = Some (P q)) →
  opt is_num v = true →
  present_and cmp v k
  = Some (Py.truthy v && match Py.num_of v with Some q => P q | None => false end).
Proof.
  intros Hcmp. unfold present_and.
  intros [-> | [q Hq]]%num_of_opt; [done|].
  rewrite Hq. destruct (Py.truthy v); [by apply Hcmp | done].
Qed.



End tips.



(** ** Facts about the greeting *)

Section greeting.
Variable repr : value → string.
Implicit Types (report : gmap string value) (clock : datetime) (l : list string).

Lemma last_char_dot (s : string) : last_char (s +:+ ".") = Some "."%char.
Proof. by rewrite last_char_app. Qed.

Lemma time_greeting_not_closing (h : Z) : time_greeting h ≠ closing_sentence.
Proof. unfold time_greeting. repeat case_match; discriminate. Qed.

Lemma health_sentence_total (v : value) (q : Q) :
  Py.num_of v = Some q →
  ∃ hs, health_sentence v = Some hs
        ∧ last_char hs = Some "."%char ∧ hs ≠ closing_sentence.
Proof.
  intros Hq. unfold health_sentence, Py.ge. rewrite Hq. simpl.
  repeat case_match;
    (eexists; split; [reflexivity | split; [reflexivity | discriminate]]).
Qed.

Lemma snoc_cases l :
  l ≠ [] → ∃ init x, l = init ++ [x].
Proof.
  intros Hl. destruct (exists_last Hl) as (init & x & ->). eauto.
Qed.

Lemma issues_sentence_total l :
  l ≠ [] → ∃ s, issues_sentence l = Some s ∧ s ≠ closing_sentence.
Proof.
  intros (init & x & ->)%snoc_cases.
  destruct init as [|y init].
  - eexists. split; [apply issues_sentence_one|].
    rewrite !string_app_cons. discriminate.
  - eexists. split; [apply issues_sentence_many; simpl; lia|].
    rewrite !string_app_cons. discriminate.
Qed.

Lemma suggestions_sentence_total l :
  l ≠ [] →
  ∃ s, suggestions_sentence l = Some s
       ∧ last_char s = Some "."%char ∧ s ≠ closing_sentence.
Proof.
  intros (init & x & ->)%snoc_cases.
  destruct init as [|y [|z init]].
  - eexists. split; [apply suggestions_sentence_one|].
    split; [|rewrite !string_app_cons; discriminate].
    rewrite <- !string_app_assoc. apply last_char_dot.
  - eexists. split; [apply suggestions_sentence_two|].
    split; [|rewrite !string_app_cons; discriminate].
    rewrite <- !string_app_assoc. apply last_char_dot.
  - eexists. split; [apply suggestions_sentence_many; simpl; lia|].
    split; [|rewrite !string_app_cons; discriminate].
    rewrite <- !string_app_assoc. apply last_char_dot.
Qed.

Lemma reported_score_num report :
  match report !! "health_score" with None => true | Some v => is_num v end = true →
  Py.num_of (default (VInt 100) (report !! "health_score"))
  = Some (reported_score report).
Proof.
  unfold reported_score. destruct (report !! "health_score") as [v|]; [|done].
  intros [q Hq]%num_of_num. simpl. by rewrite Hq.
Qed.

(** A greeting whose last sentence ends in a full stop does not end with
    the closing sentence. *)
Lemma not_closing_after_dot (parts : list string) (x : string) :
  last_char x = Some "."%char →
  ¬ ends_with (join " " (parts ++ [x])) closing_sentence.
Proof.
  intros Hx [before E].
  destruct (join_snoc " " parts x) as [pre Hpre]. rewrite Hpre in E.
  assert (x ≠ "") by (intros ->; discriminate).
  apply (f_equal last_char) in E.
  rewrite !last_char_app, Hx in E by done. discriminate.
Qed.

(** The clock is used for its hour alone. *)
Lemma greeting_parts_hour clock1 clock2 report :
  hour clock1 = hour clock2 →
  greeting_parts repr clock1 report = greeting_parts repr clock2 report.
Proof. intros E. unfold greeting_parts. by rewrite E. Qed.

Lemma greeting_parts_head clock report parts :
  greeting_parts repr clock report = Some parts →
  head parts = Some (time_greeting (hour clock)).
Proof.
  unfold greeting_parts. cbv zeta. intros Hp.
  destruct (health_sentence _); simpl in Hp; [|discriminate].
  destruct (extract_issues _ _) as [[issues suggestions]|]; simpl in Hp;
    [|discriminate].
  destruct issues, suggestions; simpl in Hp;
    repeat (match type of Hp with
            | context [issues_sentence ?l] => destruct (issues_sentence l)
            | context [suggestions_sentence ?l] => destruct (suggestions_sentence l)
            | context [Py.ge ?v ?k] => destruct (Py.ge v k) as [[]|]
            end; simpl in Hp; try discriminate);
    by simplify_eq.
Qed.

(** Nothing after the salutation depends on the clock. *)
Lemma greeting_parts_tail clock1 clock2 report :
  tail <$> greeting_parts repr clock1 report
  = tail <$> greeting_parts repr clock2 report.
Proof.
  unfold greeting_parts. cbv zeta.
  destruct (health_sentence _); simpl; [|done].
  destruct (extract_issues _ _) as [[issues suggestions]|]; simpl; [|done].
  destruct issues, suggestions; simpl;
    repeat (match goal with
            | |- context [issues_sentence ?l] => destruct (issues_sentence l)
            | |- context [suggestions_sentence ?l] => destruct (suggestions_sentence l)
            | |- context [Py.ge ?v ?k] => destruct (Py.ge v k) as [[]|]
            end; simpl; try done).
Qed.

End greeting.

(** C3 as stated fails for the greeting: the same snapshot is greeted
    differently at 9 h and at 15 h, because [generate_greeting] reads the
    clock itself. *)
Lemma greeting_reads_the_clock :
  generate_greeting no_repr (at_hour 9) ∅
  ≠ generate_greeting no_repr (at_hour 15) ∅.
Proof. vm_compute. discriminate. Qed.

(** C3, amended. The score and the extracted issues are functions of the
    snapshot alone.  The greeting is a function of the snapshot and of the
    hour that [generate_greeting] reads from the system clock: two calls on
    the same snapshot at the same hour of day return the same text, and the
    text opens with the salutation for that hour. *)
Theorem greeting_determined_by_hour
    (repr : value → string) (clock1 clock2 : datetime) (report : gmap string value) :
  hour clock1 = hour clock2 →
  generate_greeting repr clock1 report = generate_greeting repr clock2 report
  ∧ (∀ parts, greeting_parts repr clock1 report = Some parts →
              head parts = Some (time_greeting (hour clock2)))
  ∧ (∀ clock3, tail <$> greeting_parts repr clock1 report
               = tail <$> greeting_parts repr clock3 report).
Proof.
  intros E. split; [|split].
  - unfold generate_greeting. by rewrite (greeting_parts_hour repr _ _ report E).
  - intros parts Hp. rewrite <- E. by apply greeting_parts_head in Hp.
  - intros clock3. apply greeting_parts_tail.
Qed.

Lemma greeting_determined_by_hour_witness :
  generate_greeting no_repr (at_hour 9) troubled
  = generate_greeting no_repr
      {| year := 2025; month := 1; day := 2; hour := 9;
         minute := 59; second := 59; microsecond := 7 |} troubled.
Proof.
  refine (proj1 (greeting_determined_by_hour no_repr (at_hour 9) _ troubled _)).
  reflexivity.
Defined.

(** C7. On a well-formed snapshot the closing sentence is one of the
    sentences of the greeting, and the greeting ends with it, exactly when
    the stored health score is at least 85 and no issue was found; with a
    score of 85 and one issue it is absent. *)
Theorem closing_sentence_iff
    (repr : value → string) (clock : datetime) (report : gmap string value) :
  well_formed report = true →
  (∃ issues suggestions parts greeting,
     extract_issues repr report = Some (issues, suggestions)
     ∧ greeting_parts repr clock report = Some parts
     ∧ generate_greeting repr clock report = Some greeting
     ∧ (closing_sentence ∈ parts
        ↔ (85 <= reported_score report)%Q ∧ issues = [])
     ∧ (ends_with greeting closing_sentence
        ↔ (85 <= reported_score report)%Q ∧ issues = []))
  ∧ generate_greeting repr (at_hour 9)
      (<[ "health_score" := VInt 85 ]> (storage_at (VInt 85)))
    = Some ("Good morning! Your computer is performing great with excellent system health."
            +:+ " I noticed limited disk space."
            +:+ " I'd recommend you consider cleaning up files.")
  ∧ generate_greeting repr (at_hour 9) {[ "health_score" := VInt 85 ]}
    = Some ("Good morning! Your computer is performing great with excellent system health."
            +:+ " Keep up the great work maintaining your system!").
Proof.
  intros H. split; [|split; vm_compute; reflexivity].
  destruct (extract_issues_pairs repr report H) as (before & after & _ & _ & E).
  cbv zeta in E. revert E.
  generalize (before ++ (if Py.Qltb 85 (metric report "memory" "percent_used")
                         then [memory_pair] else []) ++ after).
  intros pairs E.
  apply well_formed_parts in H as (_ & _ & _ & _ & _ & _ & Hh).
  apply reported_score_num in Hh.
  destruct (health_sentence_total _ _ Hh) as (hs & Hhs & Hdot & Hne).
  pose proof (time_greeting_not_closing (hour clock)) as Htg.
  exists (pairs.*1), (pairs.*2).
  unfold generate_greeting, greeting_parts. cbv zeta.
  rewrite Hhs, E. unfold Py.ge. rewrite Hh. simpl.
  change (inject_Z 85) with 85%Q.
  assert (Hnot : ∀ l, Forall (λ s, s ≠ closing_sentence) l → closing_sentence ∉ l).
  { intros l Hl Hin. rewrite Forall_forall in Hl. by apply (Hl _ Hin). }
  destruct pairs as [|p pairs]; [simpl | rewrite !fmap_cons; cbn beta iota].
  - rewrite andb_true_r.
    destruct (Qle_bool 85 (reported_score report)) eqn:Hc; simpl;
      (eexists _, _; do 3 (split; [reflexivity|]); split; split).
    + intros _. by apply Qle_bool_iff in Hc.
    + intros _. apply list_elem_of_In. simpl. auto.
    + intros _. by apply Qle_bool_iff in Hc.
    + intros _. exists (time_greeting (hour clock) +:+ " " +:+ hs +:+ " ").
      by rewrite !string_app_assoc.
    + intros Hin. by apply (Hnot [time_greeting (hour clock); hs]) in Hin; auto.
    + intros [Hq _]. apply Qle_bool_iff in Hq. congruence.
    + intros Hend.
      by apply (not_closing_after_dot [time_greeting (hour clock)] hs) in Hend.
    + intros [Hq _]. apply Qle_bool_iff in Hq. congruence.
  - destruct (issues_sentence_total (p.1 :: pairs.*1)) as (si & -> & Hsi); [done|].
    destruct (suggestions_sentence_total (p.2 :: pairs.*2))
      as (ss & -> & Hss & Hsn); [done|].
    rewrite andb_false_r. simpl.
    eexists _, _; do 3 (split; [reflexivity|]); split; split.
    + intros Hin.
      by apply (Hnot [time_greeting (hour clock); hs; si; ss]) in Hin; auto.
    + by intros [_ ?].
    + intros Hend.
      by apply (not_closing_after_dot [time_greeting (hour clock); hs; si] ss) in Hend.
    + by intros [_ ?].
Qed.

Lemma closing_sentence_iff_witness :
  well_formed troubled = true
  ∧ ∃ issues suggestions parts greeting,
      extract_issues no_repr troubled = Some (issues, suggestions)
      ∧ greeting_parts no_repr (at_hour 9) troubled = Some parts
      ∧ generate_greeting no_repr (at_hour 9) troubled = Some greeting
      ∧ (closing_sentence ∈ parts
         ↔ (85 <= reported_score troubled)%Q ∧ issues = [])
      ∧ (ends_with greeting closing_sentence
         ↔ (85 <= reported_score troubled)%Q ∧ issues = []).
Proof.
  split; [vm_compute; reflexivity|].
  apply (proj1 (closing_sentence_iff no_repr (at_hour 9) troubled eq_refl)).
Defined.

(** ** Further facts about the scorer *)

Section scorer_structure.
Implicit Types (report : gmap string value) (score : Z).

Lemma score_storage_shift report score s t :
  score_storage report score = Some s →
  score_storage report t = Some (t - (score - s)) ∧ score - 20 ≤ s ≤ score.
Proof.
  unfold score_storage, Py.gt. cbv zeta. intros H.
  destruct (Py.get _ _ _) as [v|]; simpl in *; [|discriminate].
  destruct (Py.num_of v) as [q|]; simpl in *; [|discriminate].
  repeat destruct (Py.Qltb _ _); simplify_eq; split; try lia; f_equal; lia.
Qed.

Lemma score_memory_shift report score s t :
  score_memory report score = Some s →
  score_memory report t = Some (t - (score - s)) ∧ score - 15 ≤ s ≤ score.
Proof.
  unfold score_memory, Py.gt. cbv zeta. intros H.
  destruct (Py.get _ _ _) as [v|]; simpl in *; [|discriminate].
  destruct (Py.num_of v) as [q|]; simpl in *; [|discriminate].
  repeat destruct (Py.Qltb _ _); simplify_eq; split; try lia; f_equal; lia.
Qed.

Lemma score_startup_shift report score s t :
  score_startup report score = Some s →
  score_startup report t = Some (t - (score - s)) ∧ score - 5 ≤ s ≤ score.
Proof.
  unfold score_startup, Py.gt. cbv zeta. intros H.
  destruct (Py.get _ _ _) as [v|]; simpl in *; [|discriminate].
  destruct (Py.num_of v) as [q|]; simpl in *; [|discriminate].
  repeat destruct (Py.Qltb _ _); simplify_eq; split; try lia; f_equal; lia.
Qed.

Lemma score_drivers_shift report score s t :
  score_drivers report score = Some s →
  score_drivers report t = Some (t - (score - s)) ∧ score - 15 ≤ s ≤ score.
Proof.
  unfold score_drivers, Py.gt. cbv zeta. intros H.
  destruct (Py.get _ _ _) as [v|]; simpl in *; [|discriminate].
  destruct (Py.num_of v) as [q|]; simpl in *; [|discriminate].
  repeat destruct (Py.Qltb _ _); simplify_eq; split; try lia; f_equal; lia.
Qed.

Lemma score_battery_health_bound battery score s :
  score_battery_health battery score = Some s → score - 25 ≤ s ≤ score.
Proof.
  unfold score_battery_health, Py.lt. intros H.
  destruct (Py.get _ _ _) as [v|]; simpl in *; [|discriminate].
  destruct (Py.truthy _); [|simplify_eq; lia].
  destruct (Py.num_of v); simpl in *; [|discriminate].
  repeat destruct (Py.Qltb _ _); simplify_eq; lia.
Qed.

Lemma score_battery_cycles_bound battery score s :
  score_battery_cycles battery score = Some s → score - 10 ≤ s ≤ score.
Proof.
  unfold score_battery_cycles, Py.gt. intros H.
  destruct (Py.get _ _ _) as [v|]; simpl in *; [|discriminate].
  destruct (Py.truthy _); [|simplify_eq; lia].
  destruct (Py.num_of v); simpl in *; [|discriminate].
  repeat destruct (Py.Qltb _ _); simplify_eq; lia.
Qed.

Lemma score_battery_shift report score s t :
  score_battery report score = Some s →
  score_battery report t = Some (t - (score - s)) ∧ score - 45 ≤ s ≤ score.
Proof.
  unfold score_battery. cbv zeta. intros H.
  destruct (Py.truthy _); [|simplify_eq; split; [f_equal|]; lia].
  destruct (battery_low _ _) as [low|]; simpl in *; [|discriminate].
  destruct (score_battery_health _ _) as [s1|] eqn:H1; simpl in *; [|discriminate].
  pose proof (score_battery_health_bound _ _ _ H1).
  pose proof (score_battery_cycles_bound _ _ _ H).
  rewrite (score_battery_health_shift _ _ _ (if low then t - 10 else t) H1). simpl.
  rewrite (score_battery_cycles_shift _ _ _
             ((if low then t - 10 else t)
              - ((if low then score - 10 else score) - s1)) H).
  split; [f_equal|]; destruct low; lia.
Qed.

(** The total is 100 less the amounts the blocks subtract when run on their
    own, and stays at or above 0 before [max] is applied. *)
Lemma score_decomposes report s1 s2 s3 s4 s5 :
  score_storage report 100 = Some s1 →
  score_memory report 100 = Some s2 →
  score_battery report 100 = Some s3 →
  score_startup report 100 = Some s4 →
  score_drivers report 100 = Some s5 →
  get_system_health_score report = Some (s1 + s2 + s3 + s4 + s5 - 400)
  ∧ 0 ≤ s1 + s2 + s3 + s4 + s5 - 400 ≤ 100.
Proof.
  intros H1 H2 H3 H4 H5. unfold get_system_health_score. cbv zeta.
  destruct (score_storage_shift _ _ _ 100 H1) as [_ B1].
  destruct (score_memory_shift _ _ _ s1 H2) as [E2 B2].
  destruct (score_battery_shift _ _ _ (s1 - (100 - s2)) H3) as [E3 B3].
  destruct (score_startup_shift _ _ _ (s1 - (100 - s2) - (100 - s3)) H4) as [E4 B4].
  destruct (score_drivers_shift _ _ _
              (s1 - (100 - s2) - (100 - s3) - (100 - s4)) H5) as [E5 B5].
  rewrite H1. simpl. rewrite E2. simpl. rewrite E3. simpl. rewrite E4. simpl.
  rewrite E5. simpl. split; [f_equal|]; lia.
Qed.

(** If the whole function returns, each block returns when run on its own. *)
Lemma score_blocks_return report s :
  get_system_health_score report = Some s →
  ∃ s1 s2 s3 s4 s5,
    score_storage report 100 = Some s1 ∧ score_memory report 100 = Some s2
    ∧ score_battery report 100 = Some s3 ∧ score_startup report 100 = Some s4
    ∧ score_drivers report 100 = Some s5.
Proof.
  unfold get_system_health_score. cbv zeta. intros H.
  destruct (score_storage report 100) as [t1|] eqn:H1; simpl in H; [|discriminate].
  destruct (score_memory report t1) as [t2|] eqn:H2; simpl in H; [|discriminate].
  destruct (score_battery report t2) as [t3|] eqn:H3; simpl in H; [|discriminate].
  destruct (score_startup report t3) as [t4|] eqn:H4; simpl in H; [|discriminate].
  destruct (score_drivers report t4) as [t5|] eqn:H5; simpl in H; [|discriminate].
  destruct (score_memory_shift _ _ _ 100 H2) as [E2 _].
  destruct (score_battery_shift _ _ _ 100 H3) as [E3 _].
  destruct (score_startup_shift _ _ _ 100 H4) as [E4 _].
  destruct (score_drivers_shift _ _ _ 100 H5) as [E5 _].
  eauto 10.
Qed.

(** A block reads only its own key of the report. *)
Lemma score_memory_frame report key v score :
  key ≠ "memory" → score_memory (<[key := v]> report) score = score_memory report score.
Proof. intros. unfold score_memory. by rewrite lookup_insert_ne. Qed.

Lemma score_storage_frame report key v score :
  key ≠ "storage" →
  score_storage (<[key := v]> report) score = score_storage report score.
Proof. intros. unfold score_storage. by rewrite lookup_insert_ne. Qed.

Lemma score_battery_frame report key v score :
  key ≠ "battery" →
  score_battery (<[key := v]> report) score = score_battery report score.
Proof. intros. unfold score_battery. by rewrite lookup_insert_ne. Qed.

Lemma score_startup_frame report key v score :
  key ≠ "startup" →
  score_startup (<[key := v]> report) score = score_startup report score.
Proof. intros. unfold score_startup. by rewrite lookup_insert_ne. Qed.

Lemma score_drivers_frame report key v score :
  key ≠ "drivers" →
  score_drivers (<[key := v]> report) score = score_drivers report score.
Proof. intros. unfold score_drivers. by rewrite lookup_insert_ne. Qed.

Lemma score_frame report key v :
  key ∉ ["storage"; "memory"; "battery"; "startup"; "drivers"] →
  get_system_health_score (<[key := v]> report) = get_system_health_score report.
Proof.
  intros Hk. unfold get_system_health_score. cbv zeta.
  assert (key ≠ "storage" ∧ key ≠ "memory" ∧ key ≠ "battery"
          ∧ key ≠ "startup" ∧ key ≠ "drivers") as (? & ? & ? & ? & ?).
  { repeat split; intros ->; apply Hk; apply list_elem_of_In; simpl; auto 10. }
  rewrite score_storage_frame by done.
  destruct (score_storage report 100) as [s1|]; simpl; [|done].
  rewrite score_memory_frame by done.
  destruct (score_memory report s1) as [s2|]; simpl; [|done].
  rewrite score_battery_frame by done.
  destruct (score_battery report s2) as [s3|]; simpl; [|done].
  rewrite score_startup_frame by done.
  destruct (score_startup report s3) as [s4|]; simpl; [|done].
  by rewrite score_drivers_frame.
Qed.

(** When the storage block returns, its field is a number and the amount
    subtracted is the tier of that number. *)
Lemma score_storage_metric report score s :
  score_storage report score = Some s →
  s = score - (if Py.Qltb 90 (metric report "storage" "percent_used") then 20
               else if Py.Qltb 80 (metric report "storage" "percent_used") then 10
               else 0).
Proof.
  unfold score_storage, metric, Py.gt, Py.get. cbv zeta.
  destruct (report !! "storage") as [[| | | | | |d]|]; simpl; try discriminate.
  - destruct (d !! "percent_used") as [v|]; simpl.
    + destruct (Py.num_of v) as [q|]; simpl; [|discriminate].
      change (inject_Z 90) with 90%Q. change (inject_Z 80) with 80%Q.
      repeat destruct (Py.Qltb _ _); intros; simplify_eq; lia.
    + change (Py.Qltb (inject_Z 90) (inject_Z 0)) with false.
      change (Py.Qltb (inject_Z 80) (inject_Z 0)) with false.
      change (Py.Qltb 90 0) with false. change (Py.Qltb 80 0) with false.
      simpl. intros; simplify_eq; lia.
  - rewrite lookup_empty. simpl.
    change (Py.Qltb (inject_Z 90) (inject_Z 0)) with false.
    change (Py.Qltb (inject_Z 80) (inject_Z 0)) with false.
    change (Py.Qltb 90 0) with false. change (Py.Qltb 80 0) with false.
    simpl. intros; simplify_eq; lia.
Qed.

Lemma Qltb_mono (k a b : Q) :
  (a <= b)%Q → Py.Qltb k a = true → Py.Qltb k b = true.
Proof.
  rewrite !Qltb_lt. intros Hab Hk. eapply Qlt_le_trans; eassumption.
Qed.

End scorer_structure.

(** X1. Whenever the scorer returns, each of its five blocks returns when
    run on its own, the score is 100 less the sum of the five amounts they
    subtract, the amounts are bounded by 20, 15, 45, 5 and 15, and so the
    final [max(0, score)] never changes the result. *)
Theorem score_is_100_less_deductions (report : gmap string value) (s : Z) :
  get_system_health_score report = Some s →
  ∃ d1 d2 d3 d4 d5,
    score_storage report 100 = Some (100 - d1)
    ∧ score_memory report 100 = Some (100 - d2)
    ∧ score_battery report 100 = Some (100 - d3)
    ∧ score_startup report 100 = Some (100 - d4)
    ∧ score_drivers report 100 = Some (100 - d5)
    ∧ 0 ≤ d1 ≤ 20 ∧ 0 ≤ d2 ≤ 15 ∧ 0 ≤ d3 ≤ 45 ∧ 0 ≤ d4 ≤ 5 ∧ 0 ≤ d5 ≤ 15
    ∧ s = 100 - (d1 + d2 + d3 + d4 + d5).
Proof.
  intros H.
  destruct (score_blocks_return report s H)
    as (s1 & s2 & s3 & s4 & s5 & H1 & H2 & H3 & H4 & H5).
  destruct (score_decomposes report _ _ _ _ _ H1 H2 H3 H4 H5) as [E _].
  destruct (score_storage_shift _ _ _ 100 H1) as [_ ?].
  destruct (score_memory_shift _ _ _ 100 H2) as [_ ?].
  destruct (score_battery_shift _ _ _ 100 H3) as [_ ?].
  destruct (score_startup_shift _ _ _ 100 H4) as [_ ?].
  destruct (score_drivers_shift _ _ _ 100 H5) as [_ ?].
  exists (100 - s1), (100 - s2), (100 - s3), (100 - s4), (100 - s5).
  replace (100 - (100 - s1)) with s1 by lia.
  replace (100 - (100 - s2)) with s2 by lia.
  replace (100 - (100 - s3)) with s3 by lia.
  replace (100 - (100 - s4)) with s4 by lia.
  replace (100 - (100 - s5)) with s5 by lia.
  repeat (split; [done || lia|]).
  rewrite E in H. simplify_eq. lia.
Qed.

Lemma score_is_100_less_deductions_witness :
  ∃ d1 d2 d3 d4 d5,
    score_storage troubled 100 = Some (100 - d1)
    ∧ score_memory troubled 100 = Some (100 - d2)
    ∧ score_battery troubled 100 = Some (100 - d3)
    ∧ score_startup troubled 100 = Some (100 - d4)
    ∧ score_drivers troubled 100 = Some (100 - d5)
    ∧ 0 ≤ d1 ≤ 20 ∧ 0 ≤ d2 ≤ 15 ∧ 0 ≤ d3 ≤ 45 ∧ 0 ≤ d4 ≤ 5 ∧ 0 ≤ d5 ≤ 15
    ∧ 22 = 100 - (d1 + d2 + d3 + d4 + d5).
Proof.
  apply (score_is_100_less_deductions troubled 22). vm_compute. reflexivity.
Defined.

(** X2. The score depends on the five scored categories alone: setting any
    other key of the report (the stored score, the timestamp, the lists of
    programs and services, ...) leaves it unchanged, whether it is a number
    or an exception. *)
Theorem score_ignores_other_keys
    (report : gmap string value) (key : string) (v : value) :
  key ∉ ["storage"; "memory"; "battery"; "startup"; "drivers"] →
  get_system_health_score (<[key := v]> report) = get_system_health_score report.
Proof. apply score_frame. Qed.

Lemma score_ignores_other_keys_witness :
  get_system_health_score (<["health_score" := VStr "n/a"]> worn_battery)
  = get_system_health_score worn_battery.
Proof.
  apply (score_ignores_other_keys worn_battery "health_score" (VStr "n/a")).
  apply (bool_decide_unpack _). vm_compute. exact I.
Defined.

(** X3. A fuller disk never scores higher: of two reports that differ in
    their storage entry only and are both scored, the one whose storage use
    is at least as large has a score at most as large. *)
Theorem fuller_disk_never_scores_higher
    (report : gmap string value) (storage storage' : value) (s s' : Z) :
  (metric (<["storage" := storage]> report) "storage" "percent_used"
   <= metric (<["storage" := storage']> report) "storage" "percent_used")%Q →
  get_system_health_score (<["storage" := storage]> report) = Some s →
  get_system_health_score (<["storage" := storage']> report) = Some s' →
  s' ≤ s.
Proof.
  intros Hm H H'.
  destruct (score_blocks_return _ s H)
    as (s1 & s2 & s3 & s4 & s5 & H1 & H2 & H3 & H4 & H5).
  destruct (score_blocks_return _ s' H')
    as (t1 & t2 & t3 & t4 & t5 & T1 & T2 & T3 & T4 & T5).
  destruct (score_decomposes _ _ _ _ _ _ H1 H2 H3 H4 H5) as [E _].
  destruct (score_decomposes _ _ _ _ _ _ T1 T2 T3 T4 T5) as [E' _].
  rewrite score_memory_frame in H2, T2 by done.
  rewrite score_battery_frame in H3, T3 by done.
  rewrite score_startup_frame in H4, T4 by done.
  rewrite score_drivers_frame in H5, T5 by done.
  apply score_storage_metric in H1, T1.
  assert (t1 ≤ s1).
  { subst s1 t1.
    destruct (Py.Qltb 90 (metric (<["storage" := storage]> report) _ _)) eqn:A.
    - by rewrite (Qltb_mono _ _ _ Hm A).
    - destruct (Py.Qltb 80 (metric (<["storage" := storage]> report) _ _)) eqn:B.
      + rewrite (Qltb_mono _ _ _ Hm B). case_match; lia.
      + repeat case_match; lia. }
  rewrite E in H. rewrite E' in H'. simplify_eq. lia.
Qed.

Lemma fuller_disk_never_scores_higher_witness :
  get_system_health_score
    (<["storage" := VDict {[ "percent_used" := VInt 85 ]}]> worn_battery) = Some 45
  ∧ get_system_health_score
      (<["storage" := VDict {[ "percent_used" := VInt 95 ]}]> worn_battery) = Some 35
  ∧ 35 ≤ 45.
Proof.
  split; [vm_compute; reflexivity|]. split; [vm_compute; reflexivity|].
  refine (fuller_disk_never_scores_higher worn_battery
            (VDict {[ "percent_used" := VInt 85 ]})
            (VDict {[ "percent_used" := VInt 95 ]}) 45 35 _ _ _);
    vm_compute; first [reflexivity | discriminate].
Defined.

(** ** Facts about the collected report *)

Section collecting.
Variable repr : value → string.
Implicit Types (report : gmap string value) (tips : list string).

Lemma get_autostart_programs_length (result : probe) :
  (length (get_autostart_programs result) ≤ 10)%nat.
Proof. unfold get_autostart_programs. rewrite length_take. lia. Qed.

Lemma collect_full_report_lookup (c : collected) report :
  collect_full_report c = Some report →
  ∃ s, get_system_health_score (delete "health_score" report) = Some s
       ∧ report !! "health_score" = Some (VInt s)
       ∧ report !! "autostart_programs"
         = Some (VList (VStr <$> get_autostart_programs (c_autostart c)))
       ∧ report !! "battery" = Some (c_battery c).
Proof.
  unfold collect_full_report. cbv zeta. intros H.
  destruct (get_system_health_score _) as [s|] eqn:Hs; simpl in H; [|discriminate].
  simplify_eq. exists s. split; [|split; [|split]].
  - rewrite delete_insert_id; [done|]. by vm_compute.
  - apply lookup_insert_eq.
  - by vm_compute.
  - by vm_compute.
Qed.

(** The battery block of the tips adds nothing but battery tips. *)
Lemma tips_battery_adds battery tips tips' :
  tips_battery repr battery tips = Some tips' →
  ∃ extra, tips' = tips ++ extra ∧ tip_autostart ∉ extra.
Proof.
  unfold tips_battery. intros H.
  destruct (Py.truthy battery).
  2:{ simplify_eq. exists []. split; [by rewrite app_nil_r | apply not_elem_of_nil]. }
  destruct (Py.get battery "health_percentage" VNone) as [hp|]; simpl in H;
    [|discriminate].
  destruct (Py.get battery "cycle_count" VNone) as [cc|]; simpl in H; [|discriminate].
  destruct (present_and Py.lt hp 80) as [[]|]; simpl in H; try discriminate.
  - simplify_eq. eexists. split; [done|].
    intros Hin%list_elem_of_singleton. unfold tip_autostart, tip_battery_health in Hin.
    rewrite !string_app_cons in Hin. discriminate.
  - destruct (present_and Py.gt cc 500) as [[]|]; simpl in H; simplify_eq.
    + eexists. split; [done|]. by intros Hin%list_elem_of_singleton.
    + exists []. split; [by rewrite app_nil_r | apply not_elem_of_nil].
Qed.

Lemma no_autostart_tip report (n : Z) tips :
  Py.len (default (VList []) (report !! "autostart_programs")) = Some n →
  n ≤ 10 →
  get_quick_tips repr report = Some tips →
  tip_autostart ∉ tips.
Proof.
  intros Hlen Hn. unfold get_quick_tips, collected_tips. cbv zeta.
  rewrite Hlen. intros H.
  destruct (Py.get (default (VDict ∅) (report !! "storage")) _ _) as [v1|];
    simpl in H; [|discriminate].
  destruct (Py.gt v1 80) as [c1|]; simpl in H; [|discriminate].
  destruct (Py.get (default (VDict ∅) (report !! "memory")) _ _) as [v2|];
    simpl in H; [|discriminate].
  destruct (Py.gt v2 80) as [c2|]; simpl in H; [|discriminate].
  destruct (Py.get (default (VDict ∅) (report !! "startup")) _ _) as [v3|];
    simpl in H; [|discriminate].
  destruct (Py.gt v3 7) as [c3|]; simpl in H; [|discriminate].
  destruct (tips_battery _ _ _) as [tb|] eqn:Hb; simpl in H; [|discriminate].
  destruct (Py.lt _ 80) as [c6|]; simpl in H; [|discriminate].
  apply tips_battery_adds in Hb as (extra & -> & Hextra).
  assert ((10 <? n) = false) as Hf by lia. rewrite Hf in H. simplify_eq.
  intros Hin. apply elem_of_take in Hin as (i & Hin & _).
  apply list_elem_of_lookup_2 in Hin.
  rewrite !add_if_app in Hin. simpl in Hin.
  rewrite !elem_of_app in Hin.
  destruct Hin as [[[[[Hin|Hin]|Hin]|Hin]|Hin]|Hin]; try done;
    repeat match type of Hin with
           | _ ∈ (if ?c then _ else _) => destruct c
           end;
    first [by apply elem_of_nil in Hin | by apply list_elem_of_singleton in Hin].
Qed.

End collecting.

(** X4. [collect_full_report] stores a score between 0 and 100 under
    "health_score", and scoring the finished report again returns the stored
    score. *)
Theorem collected_report_is_scored (c : collected) (report : gmap string value) :
  collect_full_report c = Some report →
  ∃ s, report !! "health_score" = Some (VInt s)
       ∧ 0 ≤ s ≤ 100
       ∧ get_system_health_score report = Some s.
Proof.
  unfold collect_full_report. cbv zeta. intros H.
  destruct (get_system_health_score _) as [s|] eqn:Hs; simpl in H; [|discriminate].
  simplify_eq. exists s. split; [apply lookup_insert_eq|].
  destruct (score_blocks_return _ s Hs)
    as (s1 & s2 & s3 & s4 & s5 & H1 & H2 & H3 & H4 & H5).
  destruct (score_decomposes _ _ _ _ _ _ H1 H2 H3 H4 H5) as [E B].
  rewrite E in Hs. split; [simplify_eq; lia|].
  rewrite score_frame; [by rewrite E|].
  apply (bool_decide_unpack _). by vm_compute.
Qed.

Lemma collected_report_is_scored_witness :
  ∃ s, sample_report !! "health_score" = Some (VInt s)
       ∧ 0 ≤ s ≤ 100
       ∧ get_system_health_score sample_report = Some s.
Proof.
  apply (collected_report_is_scored sample_collected sample_report).
  vm_compute. reflexivity.
Defined.

(** X5. [get_autostart_programs] returns at most ten names, so in a report
    built by [collect_full_report] the condition [len(autostart) > 10] of
    [get_quick_tips] never holds: the tip about startup programs is never
    given. *)
Theorem collected_report_never_tips_autostart
    (repr : value → string) (c : collected) (report : gmap string value)
    (tips : list string) :
  collect_full_report c = Some report →
  get_quick_tips repr report = Some tips →
  (length (get_autostart_programs (c_autostart c)) ≤ 10)%nat
  ∧ tip_autostart ∉ tips.
Proof.
  intros Hc Ht. pose proof (get_autostart_programs_length (c_autostart c)) as Hlen.
  split; [done|].
  destruct (collect_full_report_lookup c report Hc) as (s & _ & _ & Ha & _).
  refine (no_autostart_tip repr report
            (Z.of_nat (length (get_autostart_programs (c_autostart c)))) tips _ _ Ht).
  - rewrite Ha. simpl. by rewrite length_fmap.
  - lia.
Qed.

Lemma collected_report_never_tips_autostart_witness :
  (length (get_autostart_programs (c_autostart sample_collected)) ≤ 10)%nat
  ∧ tip_autostart ∉ [tip_storage; tip_memory; tip_restart].
Proof.
  apply (collected_report_never_tips_autostart no_repr sample_collected sample_report);
    vm_compute; reflexivity.
Defined.

(** ** Facts about the insights *)

Section insights.
Implicit Types (report config : gmap string value) (insights : list string).

(** The list is built from five tests, each adding its sentence in turn. *)
Lemma insights_shape report insights :
  get_health_insights report = Some insights →
  ∃ c1 c2 c3 c4 c5 : bool,
    (Py.get (default (VDict ∅) (report !! "storage")) "percent_used" (VInt 0)
       ≫= λ p, Py.lt p 50) = Some c1
    ∧ (Py.get (default (VDict ∅) (report !! "memory")) "percent_used" (VInt 0)
         ≫= λ p, Py.lt p 60) = Some c2
    ∧ (Py.get (default (VDict ∅) (report !! "startup")) "uptime_days" (VInt 0)
         ≫= λ d, Py.lt d 1) = Some c3
    ∧ (Py.len (default (VList []) (report !! "autostart_programs"))
         ≫= λ n, Some (n <? 5)) = Some c5
    ∧ insights
      = (if c1 then [insight_storage] else [])
        ++ (if c2 then [insight_memory] else [])
        ++ (if c3 then [insight_restart] else [])
        ++ (if c4 then [insight_uptime] else [])
        ++ (if c5 then [insight_autostart] else []).
Proof.
  unfold get_health_insights. cbv zeta. intros H.
  destruct (Py.get (default (VDict ∅) (report !! "storage")) _ _) as [v1|];
    simpl in *; [|discriminate].
  destruct (Py.lt v1 50) as [c1|]; simpl in *; [|discriminate].
  destruct (Py.get (default (VDict ∅) (report !! "memory")) _ _) as [v2|];
    simpl in *; [|discriminate].
  destruct (Py.lt v2 60) as [c2|]; simpl in *; [|discriminate].
  destruct (Py.get (default (VDict ∅) (report !! "startup")) "uptime_days" _)
    as [v3|]; simpl in *; [|discriminate].
  destruct (Py.lt v3 1) as [c3|]; simpl in *; [|discriminate].
  destruct (Py.get (default (VDict ∅) (report !! "startup")) "uptime_hours" _)
    as [v4|]; simpl in *; [|discriminate].
  destruct (Py.ge v4 24) as [c4a|]; simpl in *; [|discriminate].
  destruct (if c4a then py_le v4 168 else Some false) as [c4|]; simpl in *;
    [|discriminate].
  destruct (Py.len _) as [n|]; simpl in *; [|discriminate].
  simplify_eq. exists c1, c2, c3, c4, (n <? 5).
  repeat (split; [done|]).
  rewrite !add_if_app. simpl. by rewrite <- !app_assoc.
Qed.

(** A category without its field is read with the default 0. *)
Lemma missing_field_lt report sec key (k : Z) (c : bool) :
  section_field report sec key = VNone →
  0 < k →
  (Py.get (default (VDict ∅) (report !! sec)) key (VInt 0) ≫= λ p, Py.lt p k)
  = Some c →
  c = true.
Proof.
  unfold section_field, Py.get. intros Hf Hk.
  assert (Py.lt (VInt 0) k = Some true) as H0.
  { unfold Py.lt. simpl. f_equal. apply Qltb_lt.
    rewrite <- Zlt_Qlt. exact Hk. }
  destruct (report !! sec) as [[| | | | | |d]|]; simpl; try discriminate.
  - destruct (d !! key) as [v|]; simpl in *.
    + subst v. discriminate.
    + rewrite H0. congruence.
  - rewrite lookup_empty. simpl. rewrite H0. congruence.
Qed.

End insights.

(** X6. Missing data reads as good news: whenever [_get_health_insights]
    returns, it gives at most five insights, and a category whose field is
    missing (the section is absent or an error marker) gets its favourable
    insight, because the field is read with the default 0; a report without a
    list of autostart programs is praised for a clean startup. *)
Theorem missing_data_reads_as_good_news
    (report : gmap string value) (insights : list string) :
  get_health_insights report = Some insights →
  (length insights ≤ 5)%nat
  ∧ (section_field report "storage" "percent_used" = VNone →
     insight_storage ∈ insights)
  ∧ (section_field report "memory" "percent_used" = VNone →
     insight_memory ∈ insights)
  ∧ (section_field report "startup" "uptime_days" = VNone →
     insight_restart ∈ insights)
  ∧ (report !! "autostart_programs" = None → insight_autostart ∈ insights).
Proof.
  intros H.
  destruct (insights_shape report insights H)
    as (c1 & c2 & c3 & c4 & c5 & H1 & H2 & H3 & H5 & ->).
  split; [destruct c1, c2, c3, c4, c5; simpl; lia|].
  split; [|split; [|split]].
  - intros Hf. rewrite (missing_field_lt report _ _ 50 c1 Hf) by (done || lia).
    rewrite !elem_of_app. left. by apply list_elem_of_singleton.
  - intros Hf. rewrite (missing_field_lt report _ _ 60 c2 Hf) by (done || lia).
    rewrite !elem_of_app. right; left. by apply list_elem_of_singleton.
  - intros Hf. rewrite (missing_field_lt report _ _ 1 c3 Hf) by (done || lia).
    rewrite !elem_of_app. right; right; left. by apply list_elem_of_singleton.
  - intros Hf. rewrite Hf in H5. simpl in H5. simplify_eq.
    rewrite !elem_of_app. right; right; right; right.
    by apply list_elem_of_singleton.
Qed.

Lemma missing_data_reads_as_good_news_witness :
  insight_storage ∈ [insight_storage; insight_memory; insight_restart; insight_autostart].
Proof.
  refine (proj1 (proj2 (missing_data_reads_as_good_news (all_errors "timeout")
            [insight_storage; insight_memory; insight_restart; insight_autostart] _)) _);
    vm_compute; reflexivity.
Defined.

(** X7. [run] prints [insights[1:3]] and only when there are at least two
    insights: at most two insights are shown, a single insight is not shown
    at all, and the insight about storage space, which can only be the first
    of the list, is never shown. *)
Theorem storage_insight_is_never_shown
    (config report : gmap string value) (shown : list string) :
  shown_insights config report = Some shown →
  (length shown ≤ 2)%nat
  ∧ (insight_storage ∉ shown)
  ∧ (∀ insights, get_health_insights report = Some insights →
                 (length insights ≤ 1)%nat → shown = []).
Proof.
  unfold shown_insights. intros H.
  destruct (Py.truthy _).
  2:{ simplify_eq. split; [simpl; lia|]. split; [apply not_elem_of_nil | done]. }
  destruct (get_health_insights report) as [insights|] eqn:Hi; simpl in H;
    [|discriminate].
  destruct (insights_shape report insights Hi)
    as (c1 & c2 & c3 & c4 & c5 & _ & _ & _ & _ & ->).
  split; [|split].
  - destruct (1 <? _); simplify_eq; [rewrite length_take|simpl]; lia.
  - destruct c1, c2, c3, c4, c5; simpl in H; simplify_eq; simpl;
      intros Hin;
      repeat (apply elem_of_cons in Hin as [Hin|Hin]; [discriminate|]);
      by apply elem_of_nil in Hin.
  - intros ? [= <-] Hlen.
    destruct (Z.ltb_spec 1 (Z.of_nat (length
      ((if c1 then [insight_storage] else []) ++ (if c2 then [insight_memory] else [])
       ++ (if c3 then [insight_restart] else []) ++ (if c4 then [insight_uptime] else [])
       ++ (if c5 then [insight_autostart] else []))))); [lia|].
    by simplify_eq.
Qed.

Lemma storage_insight_is_never_shown_witness :
  (length [insight_memory; insight_restart] ≤ 2)%nat
  ∧ insight_storage ∉ [insight_memory; insight_restart].
Proof.
  pose proof (storage_insight_is_never_shown default_config (all_errors "timeout")
                [insight_memory; insight_restart]) as H.
  split; apply H; vm_compute; reflexivity.
Defined.

(** ** Facts about the configuration *)

(** X8. [load_config] returns the defaults overlaid by the file: every
    default key is present, a key of the file takes the file's value, a key
    the file lacks takes the default; the defaults are written back exactly
    when the file is missing, unreadable or not a JSON object, and then the
    defaults are what is returned. *)
Theorem load_config_overlays_defaults (file : config_file) :
  (∀ key, is_Some (default_config !! key) → is_Some ((load_config file).1 !! key))
  ∧ (∀ config key,
       file = Parsed (VDict config) →
       (load_config file).1 !! key
       = match config !! key with
         | Some v => Some v
         | None => default_config !! key
         end)
  ∧ ((load_config file).2 = None ↔ ∃ config, file = Parsed (VDict config))
  ∧ ((load_config file).2 ≠ None →
     load_config file = (default_config, Some default_config)).
Proof.
  split; [|split; [|split]].
  - intros key [v Hv]. destruct file as [| |[]]; simpl; eauto.
    rewrite lookup_union. rewrite Hv. destruct (d !! key); simpl; eauto.
  - intros config key ->. simpl. rewrite lookup_union.
    destruct (config !! key), (default_config !! key); done.
  - destruct file as [| |[]]; simpl; split; try done; try (by intros [? [=]]); eauto.
  - destruct file as [| |[]]; simpl; done.
Qed.

Lemma load_config_overlays_defaults_witness :
  (load_config (Parsed (VDict {[ "show_tips" := VBool false ]}))).1 !! "show_tips"
  = Some (VBool false)
  ∧ (load_config (Parsed (VDict {[ "show_tips" := VBool false ]}))).1
      !! "max_autostart_display" = Some (VInt 5).
Proof.
  split.
  - exact (proj1 (proj2 (load_config_overlays_defaults
             (Parsed (VDict {[ "show_tips" := VBool false ]}))))
             {[ "show_tips" := VBool false ]} "show_tips" eq_refl).
  - exact (proj1 (proj2 (load_config_overlays_defaults
             (Parsed (VDict {[ "show_tips" := VBool false ]}))))
             {[ "show_tips" := VBool false ]} "max_autostart_display" eq_refl).
Defined.

(** X9. The overlay is not recursive: a file that gives "display_sections"
    replaces the whole table of the defaults, so a section the file's table
    does not list is not displayed, even one the defaults enable; a file
    without "display_sections" leaves the default table in force. *)
Theorem partial_display_sections_hide_the_rest
    (config sections : gmap string value) (name : string) :
  (config !! "display_sections" = Some (VDict sections) →
   sections !! name = None →
   section_shown (load_config (Parsed (VDict config))).1 name = Some false)
  ∧ (config !! "display_sections" = None →
     section_shown (load_config (Parsed (VDict config))).1 name
     = section_shown default_config name).
Proof.
  split.
  - intros Hc Hn. unfold section_shown. simpl.
    rewrite lookup_union, Hc.
    destruct (default_config !! "display_sections"); simpl; by rewrite Hn.
  - intros Hc. unfold section_shown. simpl.
    by rewrite lookup_union, Hc, (left_id None _).
Qed.

Lemma partial_display_sections_hide_the_rest_witness :
  section_shown default_config "memory" = Some true
  ∧ section_shown
      (load_config (Parsed (VDict {[ "display_sections" :=
                                      VDict {[ "storage" := VBool true ]} ]}))).1
      "memory" = Some false.
Proof.
  split; [vm_compute; reflexivity|].
  apply (proj1 (partial_display_sections_hide_the_rest
                  {[ "display_sections" := VDict {[ "storage" := VBool true ]} ]}
                  {[ "storage" := VBool true ]} "memory"));
    vm_compute; reflexivity.
Defined.

(** X10. Loading is stable: a file that holds the configuration
    [load_config] returned loads to that same configuration, and nothing is
    written back. *)
Theorem load_config_is_stable (file : config_file) :
  load_config (Parsed (VDict (load_config file).1)) = ((load_config file).1, None).
Proof.
  assert (default_config ∪ default_config = default_config) as Hd
    by apply (idemp_L (∪)).
  destruct file as [| |[]]; simpl; rewrite ?Hd; try done.
  by rewrite <- (assoc_L (∪)), Hd.
Qed.

(** ** Facts about the battery record *)

Section battery_record.
Variable repr : value → string.
Implicit Types (info health : gmap string value) (b : sbattery) (st : found).

Lemma Qltb_upper (q : Q) (a c : Z) :
  a ≤ c → Py.Qltb q (inject_Z a) = true → Py.Qltb q (inject_Z c) = true.
Proof.
  rewrite !Qltb_lt. intros Hac Hq. eapply Qlt_le_trans; [exact Hq|].
  by rewrite <- Zle_Qle.
Qed.

Lemma Qltb_lower (q : Q) (a c : Z) :
  a ≤ c → Py.Qltb (inject_Z c) q = true → Py.Qltb (inject_Z a) q = true.
Proof.
  rewrite !Qltb_lt. intros Hac Hq. eapply Qle_lt_trans; [|exact Hq].
  by rewrite <- Zle_Qle.
Qed.

Lemma battery_info_fields u b battery_health info :
  get_battery_info u (Some b) battery_health = VDict info →
  keeps_charge_fields battery_health →
  ∃ q, Py.num_of (percent b) = Some q
       ∧ info !! "percent" = Some (percent b)
       ∧ info !! "plugged" = Some (power_plugged b)
       ∧ info !! "status"
         = Some (VStr (if Py.Qltb q 20 && negb (Py.truthy (power_plugged b))
                       then "critical" else "normal")).
Proof.
  unfold get_battery_info, Py.lt. intros H Hk.
  destruct (Py.num_of (percent b)) as [q|]; simpl in H; [|discriminate].
  exists q. split; [done|]. change (inject_Z 20) with 20%Q in H.
  set (base := <["percent" := percent b]> _) in H.
  assert (base !! "percent" = Some (percent b)
          ∧ base !! "plugged" = Some (power_plugged b)
          ∧ base !! "status"
            = Some (VStr (if Py.Qltb q 20 && negb (Py.truthy (power_plugged b))
                          then "critical" else "normal"))) as (B1 & B2 & B3).
  { unfold base. by rewrite !lookup_insert. }
  clearbody base.
  destruct battery_health as [health|]; [|injection H as <-; auto].
  destruct (Hk health eq_refl) as (K1 & K2 & K3).
  destruct (negb (bool_decide (health = ∅))); injection H as <-; [|auto].
  rewrite !lookup_union, K1, K2, K3, B1, B2, B3. auto.
Qed.

Lemma battery_low_of_fields info dflt (p plugged : value) (q : Q) :
  info !! "percent" = Some p → info !! "plugged" = Some plugged →
  Py.num_of p = Some q →
  battery_low (VDict info) dflt
  = Some (Py.Qltb q 20 && negb (Py.truthy plugged)).
Proof.
  intros Hp Hg Hq. unfold battery_low, Py.lt. simpl. rewrite Hp. simpl.
  rewrite Hq. simpl. change (inject_Z 20) with 20%Q.
  destruct (Py.Qltb q 20); simpl; [by rewrite Hg | done].
Qed.

Lemma present_and_lt_weaken (v : value) (a c : Z) (r : bool) :
  a ≤ c →
  present_and Py.lt v a = Some r →
  ∃ r', present_and Py.lt v c = Some r' ∧ (r = true → r' = true).
Proof.
  unfold present_and, Py.lt. intros Hac H.
  destruct (Py.truthy v); [|eauto].
  destruct (Py.num_of v) as [q|]; simpl in *; [|discriminate].
  simplify_eq. eexists. split; [done|]. by apply Qltb_upper.
Qed.

Lemma present_and_gt_weaken (v : value) (a c : Z) (r : bool) :
  a ≤ c →
  present_and Py.gt v c = Some r →
  ∃ r', present_and Py.gt v a = Some r' ∧ (r = true → r' = true).
Proof.
  unfold present_and, Py.gt. intros Hac H.
  destruct (Py.truthy v); [|eauto].
  destruct (Py.num_of v) as [q|]; simpl in *; [|discriminate].
  simplify_eq. eexists. split; [done|]. by apply Qltb_lower.
Qed.

Lemma note_changes (i sg : string) st : note i sg st ≠ st.
Proof.
  destruct st as [l1 l2]. unfold note. simpl. intros [= E _].
  apply (f_equal length) in E. rewrite length_app in E. simpl in E. lia.
Qed.

End battery_record.

(** X11. In a battery record built by [get_battery_info] the status is
    "critical" exactly when the scorer's low-charge test holds, the
    extractor's test (which reads [percent] without a default) gives the same
    answer, and the record counts as present; when the charge reported by the
    sensor is not a number the comparison raises, the bare [except] swallows
    it and the machine is reported as having no battery. *)
Theorem battery_status_matches_low_charge
    (u : Z) (b : sbattery) (battery_health : option (gmap string value)) :
  keeps_charge_fields battery_health →
  (∀ info, get_battery_info u (Some b) battery_health = VDict info →
     Py.truthy (VDict info) = true
     ∧ (py_eq_str (default VNone (info !! "status")) "critical" = true
        ↔ battery_low (VDict info) (VInt 100) = Some true)
     ∧ battery_low (VDict info) VNone = battery_low (VDict info) (VInt 100))
  ∧ (Py.num_of (percent b) = None →
     get_battery_info u (Some b) battery_health = VNone).
Proof.
  intros Hk. split.
  - intros info H.
    destruct (battery_info_fields u b battery_health info H Hk)
      as (q & Hq & Hp & Hg & Hs).
    rewrite !(battery_low_of_fields info _ _ _ q Hp Hg Hq), Hs.
    split; [|split; [|done]].
    + simpl. apply negb_true_iff, bool_decide_eq_false. intros ->.
      by rewrite lookup_empty in Hp.
    + destruct (_ && _); simpl; split; done.
  - intros Hn. unfold get_battery_info, Py.lt. by rewrite Hn.
Qed.

Lemma battery_status_matches_low_charge_witness :
  get_battery_info (-2) (Some {| percent := VStr "n/a"; secsleft := 0;
                                 power_plugged := VBool true |})
    (Some sample_health) = VNone.
Proof.
  refine (proj2 (battery_status_matches_low_charge (-2) _ (Some sample_health) _) _).
  - intros health [= <-]. vm_compute. auto.
  - reflexivity.
Defined.

(** X12. For a battery record built by [get_battery_info]: whenever the
    battery blocks of the greeting add an issue (low battery, battery health
    below 70, more than 800 cycles), the Health cell of the battery row of the
    report shows the warning sign. *)
Theorem battery_issue_is_flagged
    (repr : value → string) (u : Z) (b : sbattery)
    (battery_health : option (gmap string value)) (info : gmap string value)
    (st st1 st2 : found) :
  keeps_charge_fields battery_health →
  get_battery_info u (Some b) battery_health = VDict info →
  issues_battery_low (VDict info) st = Some st1 →
  issues_battery_health repr (VDict info) st1 = Some st2 →
  st2 ≠ st →
  battery_health_cell (VDict info) = Some cell_warning.
Proof.
  intros Hk H H1 H2 Hne.
  destruct (battery_info_fields u b battery_health info H Hk)
    as (q & Hq & Hp & Hg & Hs).
  unfold issues_battery_low in H1. unfold issues_battery_health in H2.
  destruct (Py.truthy (VDict info)).
  2:{ by simplify_eq. }
  rewrite (battery_low_of_fields info _ _ _ q Hp Hg Hq) in H1. simpl in H1.
  unfold battery_health_cell. simpl. rewrite Hs. simpl in H2 |- *.
  destruct (Py.Qltb q 20 && negb (Py.truthy (power_plugged b))); [done|].
  simpl. simplify_eq.
  destruct (present_and Py.lt _ 70) as [ch|] eqn:Hh; simpl in H2; [|discriminate].
  destruct (present_and_lt_weaken _ 70 80 ch ltac:(lia) Hh) as (ch' & -> & Hch).
  simpl. destruct ch.
  - by rewrite Hch.
  - simpl in H2. destruct ch'; [done|].
    destruct (present_and Py.gt _ 800) as [[]|]; simpl in *; simplify_eq; done.
Qed.

Lemma battery_issue_is_flagged_witness :
  battery_health_cell
    (get_battery_info (-2) (Some sample_sensors) (Some sample_health))
  = Some cell_warning.
Proof.
  refine (battery_issue_is_flagged no_repr (-2) sample_sensors (Some sample_health)
            _ ([], []) _ _ _ _ _ _ _).
  - intros health [= <-]. vm_compute. auto.
  - vm_compute. reflexivity.
  - vm_compute. reflexivity.
  - vm_compute. reflexivity.
  - vm_compute. discriminate.
Defined.

(** X13. For a battery record built by [get_battery_info]: when the Health
    cell of the battery row shows the check mark, the scorer takes at most 5
    points for the battery (the cycle tier between 500 and 800 is the only
    deduction the row does not flag). *)
Theorem unflagged_battery_costs_at_most_5
    (u : Z) (b : sbattery) (battery_health : option (gmap string value))
    (info : gmap string value) (score s : Z) :
  keeps_charge_fields battery_health →
  get_battery_info u (Some b) battery_health = VDict info →
  battery_health_cell (VDict info) = Some cell_fine →
  score_battery (battery_with info) score = Some s →
  score - 5 ≤ s ≤ score.
Proof.
  intros Hk H Hcell Hs.
  destruct (battery_info_fields u b battery_health info H Hk)
    as (q & Hq & Hp & Hg & Hst).
  clear H Hk.
  unfold battery_health_cell in Hcell. simpl in Hcell. rewrite Hst in Hcell.
  unfold score_battery, battery_with in Hs. cbv zeta in Hs.
  rewrite lookup_singleton_eq in Hs. simpl in Hs.
  destruct (negb (bool_decide (info = ∅))); [|simplify_eq; lia].
  rewrite (battery_low_of_fields info _ _ _ q Hp Hg Hq) in Hs. simpl in Hs, Hcell.
  destruct (Py.Qltb q 20 && negb (Py.truthy (power_plugged b))).
  { simpl in Hcell. by simplify_eq. }
  simpl in Hcell.
  unfold score_battery_health, score_battery_cycles, present_and, Py.lt, Py.gt in *.
  simpl in Hs.
  set (hp := default VNone (info !! "health_percentage")) in *.
  set (cc := default VNone (info !! "cycle_count")) in *.
  assert (∀ x, Py.Qltb x (inject_Z 80) = false → Py.Qltb x (inject_Z 50) = false
               ∧ Py.Qltb x (inject_Z 70) = false) as Hup.
  { intros x Hx. split; apply not_true_is_false; intros Ht;
      apply (Qltb_upper x _ 80) in Ht; (lia || congruence). }
  assert (∀ x, Py.Qltb (inject_Z 800) x = false → Py.Qltb (inject_Z 1000) x = false)
    as Hlo.
  { intros x Hx. apply not_true_is_false. intros Ht.
    apply (Qltb_lower x 800 1000) in Ht; (lia || congruence). }
  destruct (Py.truthy hp).
  - destruct (Py.num_of hp) as [qh|]; simpl in *; [|discriminate].
    destruct (Py.Qltb qh (inject_Z 80)) eqn:E80; simpl in *; [by simplify_eq|].
    destruct (Hup qh E80) as [E50 E70]. rewrite E50, E70 in Hs. simpl in Hs.
    destruct (Py.truthy cc); [|simplify_eq; lia].
    destruct (Py.num_of cc) as [qc|]; simpl in *; [|discriminate].
    destruct (Py.Qltb (inject_Z 800) qc) eqn:E800; simpl in *; [by simplify_eq|].
    rewrite (Hlo qc E800) in Hs. simpl in Hs.
    destruct (Py.Qltb (inject_Z 500) qc); simplify_eq; lia.
  - simpl in *.
    destruct (Py.truthy cc); [|simplify_eq; lia].
    destruct (Py.num_of cc) as [qc|]; simpl in *; [|discriminate].
    destruct (Py.Qltb (inject_Z 800) qc) eqn:E800; simpl in *; [by simplify_eq|].
    rewrite (Hlo qc E800) in Hs. simpl in Hs.
    destruct (Py.Qltb (inject_Z 500) qc); simplify_eq; lia.
Qed.

Lemma unflagged_battery_costs_at_most_5_witness :
  100 - 5 ≤ 95 ≤ 100.
Proof.
  refine (unflagged_battery_costs_at_most_5 (-2)
            {| percent := VFloat 64; secsleft := 7200; power_plugged := VBool false |}
            (Some {[ "cycle_count" := VInt 650 ]}) _ 100 95 _ _ _ _).
  - intros health [= <-]. vm_compute. auto.
  - vm_compute. reflexivity.
  - vm_compute. reflexivity.
  - vm_compute. reflexivity.
Defined.

(** ** Facts about missing keys *)

Lemma issues_battery_low_raises (d : gmap string value) (st : found) :
  d ≠ ∅ → d !! "percent" = None → issues_battery_low (VDict d) st = None.
Proof.
  intros Hd Hp. unfold issues_battery_low, battery_low, Py.lt. simpl.
  rewrite Hp. simpl. by rewrite bool_decide_eq_false_2.
Qed.

Lemma extract_issues_raises (repr : value → string)
    (report d : gmap string value) :
  report !! "battery" = Some (VDict d) →
  d ≠ ∅ → d !! "percent" = None →
  extract_issues repr report = None.
Proof.
  intros Hb Hd Hp. unfold extract_issues. cbv zeta. rewrite Hb.
  destruct (issues_storage _ _) as [st1|]; simpl; [|done].
  destruct (issues_memory _ _) as [st2|]; simpl; [|done].
  destruct (issues_startup _ _ _) as [st3|]; simpl; [|done].
  change (default VNone (Some (VDict d))) with (VDict d).
  by rewrite issues_battery_low_raises.
Qed.

(** X14. A battery record without "percent" is scored but cannot be
    greeted: the scorer reads the charge with the default 100 and finds it
    not low, while [generate_greeting] reads it without a default, compares
    [None] with 20 and raises, whatever else the report holds. *)
Theorem greeting_needs_battery_percent
    (repr : value → string) (clock : datetime) (report d : gmap string value) :
  report !! "battery" = Some (VDict d) →
  d ≠ ∅ → d !! "percent" = None →
  generate_greeting repr clock report = None
  ∧ battery_low (VDict d) (VInt 100) = Some false.
Proof.
  intros Hb Hd Hp. split.
  - unfold generate_greeting, greeting_parts. cbv zeta.
    destruct (health_sentence _); simpl; [|done].
    by rewrite (extract_issues_raises repr report d).
  - unfold battery_low, Py.lt. simpl. by rewrite Hp.
Qed.

Lemma greeting_needs_battery_percent_witness :
  generate_greeting no_repr (at_hour 9) (battery_with {[ "plugged" := VBool true ]})
  = None
  ∧ get_system_health_score (battery_with {[ "plugged" := VBool true ]}) = Some 100.
Proof.
  split; [|vm_compute; reflexivity].
  refine (proj1 (greeting_needs_battery_percent no_repr (at_hour 9)
                   (battery_with {[ "plugged" := VBool true ]})
                   {[ "plugged" := VBool true ]} _ _ _)).
  - vm_compute. reflexivity.
  - apply (bool_decide_unpack _). vm_compute. exact I.
  - vm_compute. reflexivity.
Defined.

(** ** The extractor and its table *)

Section table.
Variable repr : value → string.
Implicit Types (report : gmap string value) (st : found).

Lemma add_all_when_false st p : add_all st (when false p) = st.
Proof. apply add_all_nil. Qed.

Lemma get_section_raw report sec key (d : gmap string value) :
  report !! sec = Some (VDict d) →
  Py.get (default (VDict ∅) (report !! sec)) key VNone
  = Some (section_field report sec key).
Proof. intros H. unfold section_field. by rewrite H. Qed.

Lemma issues_storage_table report st :
  section_ok is_num (report !! "storage") "percent_used" = true →
  issues_storage (default (VDict ∅) (report !! "storage")) st
  = Some (add_all st
            (if Py.Qltb 90 (metric report "storage" "percent_used")
             then [("critically low disk space", "free up disk space immediately")]
             else when (Py.Qltb 80 (metric report "storage" "percent_used"))
                       ("limited disk space", "consider cleaning up files"))).
Proof.
  intros H. unfold issues_storage, Py.gt.
  destruct (get_section _ _ _ H) as (v & -> & Hq); simpl.
  rewrite Hq. simpl. change (inject_Z 90) with 90%Q. change (inject_Z 80) with 80%Q.
  repeat case_match; first [reflexivity | by rewrite add_all_nil].
Qed.

Lemma issues_startup_table report st :
  section_ok is_num (report !! "startup") "uptime_days" = true →
  issues_startup repr (default (VDict ∅) (report !! "startup")) st
  = Some (add_all st
            (when (Py.Qltb 14 (metric report "startup" "uptime_days"))
                  (py_str repr (section_field report "startup" "uptime_days")
                   +:+ " days uptime", "restart your computer soon"))).
Proof.
  intros H. unfold issues_startup, Py.gt.
  destruct (get_section _ _ _ H) as (v & Hv & Hq). rewrite Hv. simpl.
  rewrite Hq. simpl. change (inject_Z 14) with 14%Q.
  case_match; [|by rewrite add_all_nil].
  unfold section_field.
  destruct (report !! "startup") as [[| | | | | |d]|]; try discriminate; simpl.
  - reflexivity.
  - by rewrite lookup_empty.
Qed.

Lemma issues_drivers_table report st :
  section_ok is_num (report !! "drivers") "available_updates" = true →
  issues_drivers repr (default (VDict ∅) (report !! "drivers")) st
  = Some (add_all st
            (when (Py.Qltb 0 (metric report "drivers" "available_updates"))
                  (py_str repr (section_field report "drivers" "available_updates")
                   +:+ " driver updates available", "update your drivers"))).
Proof.
  intros H. unfold issues_drivers, Py.gt.
  destruct (get_section _ _ _ H) as (v & Hv & Hq). rewrite Hv. simpl.
  rewrite Hq. simpl. change (inject_Z 0) with 0%Q.
  case_match; [|by rewrite add_all_nil].
  unfold section_field.
  destruct (report !! "drivers") as [[| | | | | |d]|]; try discriminate; simpl.
  - reflexivity.
  - by rewrite lookup_empty.
Qed.

Lemma issues_battery_low_table report st :
  battery_ok (report !! "battery") = true →
  issues_battery_low (default VNone (report !! "battery")) st
  = Some (add_all st (when (battery_charge_low report)
                           ("low battery", "connect your charger"))).
Proof.
  intros H. unfold issues_battery_low, battery_charge_low, battery_present,
    battery_field.
  destruct (report !! "battery") as [[| | | | | |d]|]; try discriminate; simpl;
    rewrite ?add_all_nil; try done.
  destruct (negb (bool_decide _)); simpl; [|by rewrite add_all_nil].
  destruct (battery_fields d H) as ((p & q & Hp & Hq) & _).
  unfold battery_low, Py.lt. simpl. rewrite Hp. simpl. rewrite Hq. simpl.
  change (inject_Z 20) with 20%Q.
  destruct (Py.Qltb q 20); simpl; [|by rewrite add_all_nil].
  destruct (negb (Py.truthy _)); simpl; [done | by rewrite add_all_nil].
Qed.

Lemma issues_battery_health_table report st :
  battery_ok (report !! "battery") = true →
  issues_battery_health repr (default VNone (report !! "battery")) st
  = Some (add_all st
            (when (battery_reading report "health_percentage" (λ q, Py.Qltb q 70))
                  (battery_health_pair repr report)
             ++ when (battery_reading report "cycle_count" (λ q, Py.Qltb 800 q))
                     ("high battery cycles ("
                      +:+ py_str repr (battery_field report "cycle_count") +:+ ")",
                      "consider battery maintenance"))).
Proof.
  intros H. unfold issues_battery_health, battery_health_pair, battery_reading,
    battery_present, battery_field.
  destruct (report !! "battery") as [[| | | | | |d]|]; try discriminate; simpl;
    rewrite ?add_all_nil; try done.
  destruct (negb (bool_decide _)); simpl; [|by rewrite add_all_nil].
  destruct (battery_fields d H) as (_ & Hh & Hc).
  set (hp := default VNone (d !! "health_percentage")) in *.
  set (cc := default VNone (d !! "cycle_count")) in *.
  rewrite (present_and_reading Py.lt (λ q, Py.Qltb q 70)); [|..|exact Hh].
  2:{ intros q Hq. unfold Py.lt. by rewrite Hq. }
  rewrite (present_and_reading Py.gt (λ q, Py.Qltb 800 q)); [|..|exact Hc].
  2:{ intros q Hq. unfold Py.gt. by rewrite Hq. }
  simpl. destruct (Py.truthy hp) eqn:Ht; simpl.
  - destruct (Py.num_of hp) as [q|] eqn:Hq; simpl.
    + destruct (Py.Qltb q 70); simpl.
      * unfold Py.lt. rewrite Hq. simpl. change (inject_Z 50) with 50%Q.
        destruct (Py.Qltb q 50); simpl;
          (destruct (_ && _); simpl;
           [unfold note, add_all; simpl; by rewrite <- !app_assoc | done]).
      * destruct (_ && _); simpl; [done | by rewrite add_all_nil].
    + destruct (Py.truthy cc && _); simpl; [done | by rewrite add_all_nil].
  - destruct (Py.truthy cc && _); simpl; [done | by rewrite add_all_nil].
Qed.

Lemma extract_issues_table report :
  well_formed report = true →
  extract_issues repr report
  = Some ((issue_table repr report).*1, (issue_table repr report).*2).
Proof.
  intros (Hs & Hm & Hu & Hb & Hd & _)%well_formed_parts.
  unfold extract_issues. cbv zeta.
  rewrite (issues_storage_table report _ Hs). simpl.
  rewrite (issues_memory_adds report _ Hm). simpl.
  rewrite (issues_startup_table report _ Hu). simpl.
  rewrite (issues_battery_low_table report _ Hb). simpl.
  rewrite (issues_battery_health_table report _ Hb). simpl.
  rewrite (issues_drivers_table report _ Hd).
  rewrite !add_all_app. unfold add_all, issue_table, when. simpl.
  by rewrite <- ?app_assoc.
Qed.

Lemma issue_table_length report : (length (issue_table repr report) ≤ 7)%nat.
Proof.
  unfold issue_table, when. rewrite !length_app.
  repeat match goal with |- context [if ?c then _ else _] => destruct c end;
    simpl; lia.
Qed.

End table.

(** X15. On a well-formed snapshot the extractor returns, as its two lists,
    the two columns of the issue table: the entries whose condition holds,
    in the order storage, memory, uptime, battery charge, battery health,
    battery cycles, drivers; there are at most seven. *)
Theorem extractor_follows_the_table
    (repr : value → string) (report : gmap string value) :
  well_formed report = true →
  extract_issues repr report
  = Some ((issue_table repr report).*1, (issue_table repr report).*2)
  ∧ (length (issue_table repr report) ≤ 7)%nat.
Proof.
  intros H. split; [by apply extract_issues_table | apply issue_table_length].
Qed.

Lemma extractor_follows_the_table_witness :
  extract_issues no_repr troubled
  = Some ((issue_table no_repr troubled).*1, (issue_table no_repr troubled).*2)
  ∧ (length (issue_table no_repr troubled) ≤ 7)%nat.
Proof.
  apply (extractor_follows_the_table no_repr troubled). vm_compute. reflexivity.
Defined.

(** ** Where the scorer and the extractor agree *)

Lemma note_inj_issue (i i' sg sg' : string) (st : found) :
  note i sg st = note i' sg' st → i = i'.
Proof.
  unfold note. intros [= E _]. by apply app_inv_head in E as [= ->].
Qed.

(** X16. The scorer and the extractor agree on storage, drivers and battery
    charge: whenever both return, the extractor adds a storage issue exactly
    when the scorer deducts for storage, and it is the "critically low" one
    exactly when the deduction is 20; it adds the driver issue exactly when
    the scorer deducts for drivers; it adds "low battery" exactly when the
    scorer's low-charge test holds. *)
Theorem scorer_and_extractor_agree
    (repr : value → string) (report : gmap string value) (st : found) (score : Z) :
  (∀ st' s,
     issues_storage (default (VDict ∅) (report !! "storage")) st = Some st' →
     score_storage report score = Some s →
     (st' ≠ st ↔ s < score)
     ∧ (st' = note "critically low disk space" "free up disk space immediately" st
        ↔ s = score - 20))
  ∧ (∀ st' s,
       issues_drivers repr (default (VDict ∅) (report !! "drivers")) st = Some st' →
       score_drivers report score = Some s →
       (st' ≠ st ↔ s < score))
  ∧ (∀ st' low,
       issues_battery_low (default VNone (report !! "battery")) st = Some st' →
       Py.truthy (default VNone (report !! "battery")) = true →
       battery_low (default VNone (report !! "battery")) (VInt 100) = Some low →
       (st' ≠ st ↔ low = true)).
Proof.
  split; [|split].
  - intros st' s. unfold issues_storage, score_storage, Py.gt. cbv zeta.
    destruct (Py.get _ _ _) as [v|]; simpl; [|discriminate].
    destruct (Py.num_of v) as [q|]; simpl; [|discriminate].
    destruct (Py.Qltb (inject_Z 90) q); simpl.
    + intros [= <-] [= <-]. split; split; try done; try lia.
      intros _. apply note_changes.
    + destruct (Py.Qltb (inject_Z 80) q); simpl; intros [= <-] [= <-].
      * split; split; try lia.
        -- intros _. apply note_changes.
        -- intros E%note_inj_issue. discriminate.
      * split; split; try done; try lia.
        intros E. symmetry in E. by apply note_changes in E.
  - intros st' s. unfold issues_drivers, score_drivers, Py.gt. cbv zeta.
    destruct (Py.get _ _ (VInt 0)) as [v|]; simpl; [|discriminate].
    destruct (Py.num_of v) as [q|] eqn:Hq; simpl; [|discriminate].
    destruct (Py.Qltb (inject_Z 0) q) eqn:H0; simpl.
    + destruct (Py.get _ _ VNone) as [w|]; simpl; [|discriminate].
      intros [= <-] Hs.
      assert (s < score).
      { destruct (Py.Qltb (inject_Z 5) q); simpl in Hs; simplify_eq; lia. }
      split; [done|]. intros _. apply note_changes.
    + intros [= <-] Hs.
      assert (Py.Qltb (inject_Z 5) q = false) as H5.
      { apply not_true_is_false. intros Ht.
        apply (Qltb_lower q 0 5) in Ht; (lia || congruence). }
      rewrite H5 in Hs. simpl in Hs. simplify_eq. split; [done | lia].
  - intros st' low. unfold issues_battery_low. intros H Ht. rewrite Ht in H.
    unfold battery_low, Py.lt in *.
    destruct (default VNone (report !! "battery")) as [| | | | | |d];
      simpl in *; try discriminate.
    destruct (d !! "percent") as [p|]; simpl in *; [|discriminate].
    destruct (Py.num_of p) as [q|]; simpl in *; [|discriminate].
    destruct (Py.Qltb q (inject_Z 20)); simpl in *.
    + destruct (negb (Py.truthy _)); simpl in *; intros; simplify_eq.
      * split; [done|]. intros _. apply note_changes.
      * split; done.
    + intros; simplify_eq. split; done.
Qed.

Lemma scorer_and_extractor_agree_witness :
  note "limited disk space" "consider cleaning up files" ([], []) ≠ ([], [])
  ↔ 90 < 100.
Proof.
  refine (proj1 (proj1 (scorer_and_extractor_agree no_repr (storage_at (VInt 85))
                          ([], []) 100) _ 90 _ _));
    vm_compute; reflexivity.
Defined.

(** ** The shape of the greeting *)

(** X17. On a well-formed snapshot [generate_greeting] returns, and the
    greeting is made of the salutation, the health sentence and then either
    nothing, or the closing sentence alone, or the issue sentence followed by
    the recommendation sentence: issues and recommendations come together
    (exactly when an issue was found) and never with the closing sentence. *)
Theorem greeting_has_two_to_four_sentences
    (repr : value → string) (clock : datetime) (report : gmap string value) :
  well_formed report = true →
  ∃ issues suggestions health rest,
    extract_issues repr report = Some (issues, suggestions)
    ∧ health_sentence (default (VInt 100) (report !! "health_score")) = Some health
    ∧ greeting_parts repr clock report
      = Some ([time_greeting (hour clock); health] ++ rest)
    ∧ generate_greeting repr clock report
      = Some (join " " ([time_greeting (hour clock); health] ++ rest))
    ∧ (issues = [] → rest = [] ∨ rest = [closing_sentence])
    ∧ (issues ≠ [] →
       ∃ si ss, issues_sentence issues = Some si
                ∧ suggestions_sentence suggestions = Some ss
                ∧ rest = [si; ss]).
Proof.
  intros H.
  pose proof (extract_issues_table repr report H) as E.
  apply well_formed_parts in H as (_ & _ & _ & _ & _ & _ & Hh).
  apply reported_score_num in Hh.
  destruct (health_sentence_total _ _ Hh) as (hs & Hhs & _ & _).
  exists ((issue_table repr report).*1), ((issue_table repr report).*2), hs.
  unfold generate_greeting, greeting_parts. cbv zeta.
  rewrite Hhs, E. unfold Py.ge. rewrite Hh. simpl.
  destruct (issue_table repr report) as [|p pairs];
    [simpl | rewrite !fmap_cons; cbn beta iota].
  - rewrite andb_true_r. destruct (Qle_bool _ _); simpl.
    + exists [closing_sentence]. repeat (split; [done|]). split; [auto | done].
    + exists []. repeat (split; [done|]). split; [auto | done].
  - destruct (issues_sentence_total (p.1 :: pairs.*1)) as (si & Hsi & _); [done|].
    destruct (suggestions_sentence_total (p.2 :: pairs.*2)) as (ss & Hss & _);
      [done|].
    rewrite Hsi, Hss, andb_false_r. simpl.
    exists [si; ss]. do 4 (split; [done|]). split; [done|]. eauto.
Qed.

Lemma greeting_has_two_to_four_sentences_witness :
  ∃ issues suggestions health rest,
    extract_issues no_repr troubled = Some (issues, suggestions)
    ∧ health_sentence (default (VInt 100) (troubled !! "health_score")) = Some health
    ∧ greeting_parts no_repr (at_hour 9) troubled
      = Some ([time_greeting (hour (at_hour 9)); health] ++ rest)
    ∧ generate_greeting no_repr (at_hour 9) troubled
      = Some (join " " ([time_greeting (hour (at_hour 9)); health] ++ rest))
    ∧ (issues = [] → rest = [] ∨ rest = [closing_sentence])
    ∧ (issues ≠ [] →
       ∃ si ss, issues_sentence issues = Some si
                ∧ suggestions_sentence suggestions = Some ss
                ∧ rest = [si; ss]).
Proof.
  apply (greeting_has_two_to_four_sentences no_repr (at_hour 9) troubled).
  vm_compute. reflexivity.
Defined.

(** ** Facts about the names read from .desktop files *)

Section desktop.
Implicit Types (s x rest : string) (ls : list string).

Lemma split_lines_not_nil s : split_lines s ≠ [].
Proof.
  destruct s as [|c s]; simpl; [done|].
  destruct (Ascii.eqb c newline); [done|]. by destruct (split_lines s).
Qed.

Lemma split_lines_app x rest :
  no_newline x = true →
  split_lines (x +:+ String newline rest) = x :: split_lines rest.
Proof.
  induction x as [|c x IH]; intros Hx.
  - reflexivity.
  - simpl in Hx. apply andb_true_iff in Hx as [Hc Hx].
    rewrite string_app_cons. simpl.
    apply negb_true_iff in Hc. rewrite Hc. by rewrite (IH Hx).
Qed.

Lemma split_lines_single x : no_newline x = true → split_lines x = [x].
Proof.
  induction x as [|c x IH]; intros Hx; [done|].
  simpl in Hx. apply andb_true_iff in Hx as [Hc Hx].
  simpl. apply negb_true_iff in Hc. rewrite Hc. by rewrite (IH Hx).
Qed.

(** Splitting what [join] built from lines gives the lines back. *)
Lemma split_lines_join ls :
  ls ≠ [] → Forall (λ l, no_newline l = true) ls →
  split_lines (join (String newline "") ls) = ls.
Proof.
  induction ls as [|x ls IH]; [done|]. intros _ Hall.
  apply Forall_cons in Hall as [Hx Hall].
  destruct ls as [|y ls]; simpl.
  - by apply split_lines_single.
  - rewrite string_app_cons, string_app_nil.
    rewrite split_lines_app by done. f_equal. by apply IH.
Qed.

Lemma split_lines_no_newline s :
  Forall (λ l, no_newline l = true) (split_lines s).
Proof.
  induction s as [|c s IH]; simpl.
  - by repeat constructor.
  - destruct (Ascii.eqb c newline) eqn:Hc.
    + by constructor.
    + destruct (split_lines s) as [|line rest].
      * repeat constructor. simpl. by rewrite Hc.
      * apply Forall_cons in IH as [Hl Hr]. constructor; [|done].
        simpl. by rewrite Hc, Hl.
Qed.

Lemma after_first_no_newline (c : Ascii.ascii) s t :
  after_first c s = Some t → no_newline s = true → no_newline t = true.
Proof.
  induction s as [|a s IH]; simpl; [done|].
  intros H [_ Hs]%andb_true_iff.
  destruct (Ascii.eqb a c); [by simplify_eq | auto].
Qed.

Lemma first_name_no_newline ls n :
  Forall (λ l, no_newline l = true) ls →
  first_name ls = Some n → no_newline n = true.
Proof.
  induction ls as [|l ls IH]; simpl; [done|].
  intros [Hl Hls]%Forall_cons H.
  destruct (String.prefix "Name=" l); [|auto].
  by apply (after_first_no_newline "="%char l).
Qed.

Lemma first_name_skip before ls :
  Forall (λ l, String.prefix "Name=" l = false) before →
  first_name (before ++ ls) = first_name ls.
Proof.
  induction before as [|l before IH]; [done|].
  intros [Hl Hb]%Forall_cons. simpl. rewrite Hl. auto.
Qed.

Lemma first_name_none ls :
  Forall (λ l, String.prefix "Name=" l = false) ls → first_name ls = None.
Proof.
  intros H. rewrite <- (app_nil_r ls). by rewrite first_name_skip.
Qed.

Lemma first_name_here n ls : first_name (("Name=" +:+ n) :: ls) = Some n.
Proof.
  rewrite !string_app_cons, string_app_nil. simpl. by destruct n.
Qed.

End desktop.

(** X18. The name taken from a .desktop file is the text that follows
    "Name=" on the first line starting with "Name=": for a file made of
    lines, none of the earlier ones starting with "Name=", that text is
    returned whatever follows; a file with no such line yields nothing; and a
    returned name never contains a line break. *)
Theorem desktop_name_is_first_name_line :
  (∀ before n after,
     Forall (λ l, no_newline l = true) (before ++ ["Name=" +:+ n] ++ after) →
     Forall (λ l, String.prefix "Name=" l = false) before →
     desktop_name (join (String newline "") (before ++ ["Name=" +:+ n] ++ after))
     = Some n)
  ∧ (∀ ls,
       ls ≠ [] → Forall (λ l, no_newline l = true) ls →
       Forall (λ l, String.prefix "Name=" l = false) ls →
       desktop_name (join (String newline "") ls) = None)
  ∧ (∀ content n, desktop_name content = Some n → no_newline n = true).
Proof.
  split; [|split].
  - intros before n after Hall Hb. unfold desktop_name.
    rewrite split_lines_join; [|by destruct before|done].
    rewrite first_name_skip by done. apply first_name_here.
  - intros ls Hne Hall Hp. unfold desktop_name.
    rewrite split_lines_join by done. by apply first_name_none.
  - intros content n H. unfold desktop_name in H.
    eapply first_name_no_newline; [apply split_lines_no_newline | exact H].
Qed.

Lemma desktop_name_is_first_name_line_witness :
  desktop_name
    (join (String newline "")
       (["[Desktop Entry]"; "Type=Application"] ++ ["Name=" +:+ "Backup Agent"]
        ++ ["Name[de]=Sicherung"; "Exec=backup --daemon"]))
  = Some "Backup Agent".
Proof.
  apply (proj1 desktop_name_is_first_name_line
           ["[Desktop Entry]"; "Type=Application"] "Backup Agent"
           ["Name[de]=Sicherung"; "Exec=backup --daemon"]).
  - by vm_compute; repeat constructor.
  - by vm_compute; repeat constructor.
Defined.


(** ** Facts about the list of autostart programs in the report *)

Section listing_facts.
Variable repr : value → string.

Lemma take_to_nat_min {A} (l : list A) (m : Z) :
  0 ≤ m →
  take (Z.to_nat (Z.min (Z.of_nat (length l)) m)) l = take (Z.to_nat m) l.
Proof.
  intros Hm. destruct (Z.le_gt_cases (Z.of_nat (length l)) m).
  - rewrite Z.min_l by done. rewrite Nat2Z.id.
    rewrite firstn_all. symmetry. apply take_ge. lia.
  - by rewrite Z.min_r by lia.
Qed.

Lemma autostart_listing_limit (config sections : gmap string value)
    (autostart : list value) (m : Z) :
  config !! "display_sections" = Some (VDict sections) →
  Py.truthy (default VNone (sections !! "autostart")) = true →
  config !! "max_autostart_display" = Some (VInt m) →
  autostart ≠ [] →
  autostart_listing repr config autostart
  = Some ([listing_header (Z.of_nat (length autostart))]
          ++ imap (listing_item repr)
               (slice_to autostart (Z.min (Z.of_nat (length autostart)) m))
          ++ (if Z.min (Z.of_nat (length autostart)) m <? Z.of_nat (length autostart)
              then [listing_more (Z.of_nat (length autostart)
                                  - Z.min (Z.of_nat (length autostart)) m)]
              else [])).
Proof.
  intros Hs Hf Hm Hne. unfold autostart_listing. rewrite Hs. simpl.
  rewrite Hf, Hm. simpl.
  destruct autostart as [|a autostart]; [done|].
  assert ((0 <? Z.of_nat (length (a :: autostart))) = true) as ->.
  { apply Z.ltb_lt. simpl length. lia. }
  reflexivity.
Qed.

End listing_facts.

(** X20. With the section enabled, a non-empty list of [n] programs and an
    integer limit [m] in the configuration: for [m >= 0] the report prints
    the heading, the first [min(n, m)] programs numbered from 1, and a line
    "... and n - m more" exactly when [n > m], so the programs listed and the
    number announced add up to [n]; for a negative [m] the slice drops the
    last [-m] programs and the last line announces [n - m], more programs
    than there are. *)
Theorem autostart_listing_counts
    (repr : value → string) (config sections : gmap string value)
    (autostart : list value) (m : Z) :
  config !! "display_sections" = Some (VDict sections) →
  Py.truthy (default VNone (sections !! "autostart")) = true →
  config !! "max_autostart_display" = Some (VInt m) →
  autostart ≠ [] →
  let n := Z.of_nat (length autostart) in
  (0 ≤ m →
   autostart_listing repr config autostart
   = Some ([listing_header n]
           ++ imap (listing_item repr) (take (Z.to_nat m) autostart)
           ++ (if m <? n then [listing_more (n - m)] else []))
   ∧ Z.of_nat (length (take (Z.to_nat m) autostart))
     + (if m <? n then n - m else 0) = n)
  ∧ (m < 0 →
     autostart_listing repr config autostart
     = Some ([listing_header n]
             ++ imap (listing_item repr) (take (Z.to_nat (n + m)) autostart)
             ++ [listing_more (n - m)])
     ∧ n < n - m).
Proof.
  intros Hs Hf Hm Hne n.
  rewrite (autostart_listing_limit repr config sections autostart m Hs Hf Hm Hne).
  fold n. split.
  - intros H0. split.
    + unfold slice_to.
      assert ((Z.min n m <? 0) = false) as -> by lia.
      unfold n. rewrite take_to_nat_min by done. fold n.
      destruct (Z.ltb_spec m n).
      * assert ((Z.min n m <? n) = true) as -> by lia.
        by rewrite Z.min_r by lia.
      * by assert ((Z.min n m <? n) = false) as -> by lia.
    + rewrite length_take. destruct (Z.ltb_spec m n); unfold n in *; lia.
  - intros H0. split; [|lia].
    assert (0 < n) by (unfold n; destruct autostart; [done | simpl; lia]).
    rewrite Z.min_r by lia. unfold slice_to.
    assert ((m <? 0) = true) as -> by lia.
    assert ((m <? n) = true) as -> by lia.
    fold n. do 3 f_equal.
    destruct (Z.le_gt_cases 0 (n + m)).
    + by rewrite Z.max_r.
    + rewrite Z.max_l by lia. by replace (Z.to_nat (n + m)) with 0%nat by lia.
Qed.

Lemma autostart_listing_counts_witness :
  autostart_listing no_repr default_config (replicate 7 (VStr "agent"))
  = Some ([listing_header 7]
          ++ imap (listing_item no_repr) (take 5 (replicate 7 (VStr "agent")))
          ++ [listing_more 2]).
Proof.
  refine (proj1 (proj1 (autostart_listing_counts no_repr default_config
            (<[ "storage" := VBool true ]>
             (<[ "memory" := VBool true ]>
             (<[ "startup" := VBool true ]>
             (<[ "battery" := VBool true ]>
             (<[ "autostart" := VBool true ]>
             (<[ "services" := VBool false ]>
             (<[ "drivers" := VBool true ]> ∅)))))))
            (replicate 7 (VStr "agent")) 5 _ _ _ _) _));
    first [reflexivity | discriminate | lia].
Defined.
